(** * AutoLight Analyser: the results view and the upload handler

    A shallow embedding of [src/pages/Results.tsx] (fixture selection, cost
    recalculation, PDF export) and of [handleSubmit] in
    [src/pages/Upload.tsx], with the properties the specification states
    about them.

    Conventions of the embedding.
    - Columns declared [numeric(10,2)] in the schema ([unit_price],
      [total_cost], [wattage], ...) are held as integers counting
      hundredths, so a price of 45.99 is [4599]. Sums and products of
      such amounts are exact; the rounding of IEEE doubles is not modelled.
    - The handlers of the results page keep their totals in these exact
      hundredths; what [calculateTotalCost] computes on IEEE doubles is
      modelled beside them in [Double], on binary64 numbers with rounding
      to nearest even after every operation.
    - A string holds the UTF-8 encoding of a text.
    - [null] and [undefined] are both [None].
    - Every event handler runs to completion before the next one starts and
      reads the state the previous one left (the component has rendered in
      between); the answer of the record store to an [await]ed request is
      an input of the handler, and the request itself is put on a trace.
    - [console.error] appends to a log. *)

From Stdlib Require Import ZArith List String Ascii Bool Lia.
From Stdlib Require Import DecimalString DecimalPos QArith Qround SpecFloat.
Import ListNotations.

Open Scope string_scope.
Open Scope Z_scope.

(** ** JavaScript operators used by the source *)

Module JS.

(** [a || b] on numbers: [0] is falsy. *)
Definition or_num (a b : Z) : Z := if a =? 0 then b else a.

(** [a || b] on strings: the empty string is falsy. *)
Definition or_str (a b : string) : string :=
  if String.eqb a "" then b else a.

(** [a || b] where [a] may be [undefined] or [null]. *)
Definition or_undef {A : Type} (a : option A) (b : A) : A :=
  match a with Some x => x | None => b end.

(** [o?.field || d] for a number field. *)
Definition chain_num {A : Type} (o : option A) (field : A -> Z) (d : Z) : Z :=
  match o with Some x => or_num (field x) d | None => d end.

(** [o?.field || d] for a string field. *)
Definition chain_str {A : Type} (o : option A) (field : A -> string)
    (d : string) : string :=
  match o with Some x => or_str (field x) d | None => d end.

(** [s === o] where [s] is a string and [o] a string, [null] or
    [undefined]. *)
Definition strict_eq (s : string) (o : option string) : bool :=
  match o with Some t => String.eqb s t | None => false end.

(** [!b] where [b] may be [undefined]. *)
Definition not (b : option bool) : bool :=
  match b with Some true => false | _ => true end.

End JS.

(** ** Data model ([src/lib/supabase.ts]) *)

Module Project.
Record t : Type := mk {
  id : string;
  name : string;
  file_name : string;
  file_type : string;
  upload_date : string;
  total_fixtures : Z;
  total_cost : Z;
  average_lux : Z;
  user_id : string;
  created_at : string
}.
End Project.
Abbreviation Project := Project.t.

Module FixtureModel.
Record t : Type := mk {
  id : string;
  model_name : string;
  manufacturer : string;
  fixture_type : string;
  wattage : Z;
  lumens : Z;
  unit_price : Z;
  description : string;
  created_at : string
}.
End FixtureModel.
Abbreviation FixtureModel := FixtureModel.t.

(** [ExtendedFixture] of [Results.tsx]: a [Fixture] row, the joined
    [selected_model], and the two optional presentation fields. The column
    [selected_model_id] is nullable in the schema. *)
Module Fixture.
Record t : Type := mk {
  id : string;
  project_id : string;
  room_name : string;
  detected_symbol : string;
  selected_model_id : option string;
  quantity : Z;
  lux_level : Z;
  created_at : string;
  selected_model : option FixtureModel;
  recommendations : option (list FixtureModel);
  showRecommendations : option bool
}.

(** [{ ...fixture, recommendations, showRecommendations: b }] *)
Definition with_recommendations (fixture : t) (recs : list FixtureModel)
    (b : bool) : t :=
  mk (id fixture) (project_id fixture) (room_name fixture)
     (detected_symbol fixture) (selected_model_id fixture) (quantity fixture)
     (lux_level fixture) (created_at fixture) (selected_model fixture)
     (Some recs) (Some b).

(** [{ ...fixture, selected_model_id: newModelId, selected_model: newModel }] *)
Definition with_selection (fixture : t) (newModelId : string)
    (newModel : option FixtureModel) : t :=
  mk (id fixture) (project_id fixture) (room_name fixture)
     (detected_symbol fixture) (Some newModelId) (quantity fixture)
     (lux_level fixture) (created_at fixture) newModel
     (recommendations fixture) (showRecommendations fixture).

(** [{ ...fixture, showRecommendations: b }] *)
Definition with_show (fixture : t) (b : bool) : t :=
  mk (id fixture) (project_id fixture) (room_name fixture)
     (detected_symbol fixture) (selected_model_id fixture) (quantity fixture)
     (lux_level fixture) (created_at fixture) (selected_model fixture)
     (recommendations fixture) (Some b).
End Fixture.
Abbreviation ExtendedFixture := Fixture.t.

(** ** The record store as seen by a handler *)

Module Supabase.

(** The [{ data, error }] object a store request resolves to. *)
Record Response (A : Type) : Type := mkResponse {
  data : option A;
  error : option string
}.
Arguments mkResponse {A} _ _.
Arguments data {A} _.
Arguments error {A} _.

Definition ok {A : Type} (d : A) : Response A := mkResponse (Some d) None.
Definition failed {A : Type} (e : string) : Response A := mkResponse None (Some e).

(** The object handed to [insert] on [projects] in [Upload.tsx]. *)
Record ProjectInsert : Type := mkProjectInsert {
  pi_name : string;
  pi_file_name : string;
  pi_file_type : string;
  pi_total_fixtures : Z;
  pi_total_cost : Z;
  pi_average_lux : Z;
  pi_user_id : string
}.

(** One element of [fixturesData] in [Upload.tsx]. *)
Record FixtureInsert : Type := mkFixtureInsert {
  fi_project_id : string;
  fi_room_name : option string;
  fi_detected_symbol : option string;
  fi_selected_model_id : string;
  fi_quantity : Z;
  fi_lux_level : Z
}.

(** The requests the two pages send. *)
Inductive StoreCall : Type :=
| SelectProject (projectId : string)
| SelectFixtures (projectId : string)
| SelectModels
| UpdateSelectedModel (fixtureId newModelId : string)
| InsertProject (row : ProjectInsert)
| SelectModelsLimit (n : Z)
| InsertFixtures (rows : list FixtureInsert).

End Supabase.
Import Supabase.

(** ** Handlers: state, exceptions, log and request trace *)

(** What a handler runs in: the component state [S], the console log and
    the requests sent so far (both newest first). *)
Record World (S : Type) : Type := mkWorld {
  ui : S;
  console : list (string * string);
  calls : list StoreCall
}.
Arguments mkWorld {S} _ _ _.
Arguments ui {S} _.
Arguments console {S} _.
Arguments calls {S} _.

Inductive completion (A : Type) : Type :=
| Normal (a : A)
| Abrupt (thrown : string).
Arguments Normal {A} _.
Arguments Abrupt {A} _.

Definition M (S A : Type) : Type := World S -> completion A * World S.

Definition ret {S A : Type} (a : A) : M S A := fun w => (Normal a, w).

Definition bind {S A B : Type} (m : M S A) (k : A -> M S B) : M S B :=
  fun w =>
    match m w with
    | (Normal a, w') => k a w'
    | (Abrupt e, w') => (Abrupt e, w')
    end.

Notation "x <- m ;; k" := (bind m (fun x => k))
  (at level 61, m at next level, right associativity).
Notation "m ;; k" := (bind m (fun _ => k))
  (at level 61, right associativity).

Definition throw {S A : Type} (e : string) : M S A := fun w => (Abrupt e, w).

(** [try { body } catch (error) { handler }] *)
Definition try_catch {S A : Type} (body : M S A) (handler : string -> M S A)
    : M S A :=
  fun w =>
    match body w with
    | (Normal a, w') => (Normal a, w')
    | (Abrupt e, w') => handler e w'
    end.

(** [try { body } finally { fin }] *)
Definition try_finally {S A : Type} (body : M S A) (fin : M S unit) : M S A :=
  fun w =>
    match body w with
    | (c, w') =>
        match fin w' with
        | (Normal _, w'') => (c, w'')
        | (Abrupt e, w'') => (Abrupt e, w'')
        end
    end.

Definition get {S : Type} : M S S := fun w => (Normal (ui w), w).

Definition modify {S : Type} (f : S -> S) : M S unit :=
  fun w => (Normal tt, mkWorld (f (ui w)) (console w) (calls w)).

(** [console.error(message, error)] *)
Definition console_error {S : Type} (message error : string) : M S unit :=
  fun w => (Normal tt, mkWorld (ui w) ((message, error) :: console w) (calls w)).

(** [await supabase...]: the request is recorded, the store's answer is
    given. *)
Definition await {S A : Type} (call : StoreCall) (answer : Response A)
    : M S (Response A) :=
  fun w => (Normal answer, mkWorld (ui w) (console w) (call :: calls w)).

(** [if (error) throw error] *)
Definition throw_if {S : Type} (error : option string) : M S unit :=
  match error with Some e => throw e | None => ret tt end.

Definition exec {S A : Type} (m : M S A) (w : World S) : World S := snd (m w).

(** ** The results page ([src/pages/Results.tsx]) *)

Module Results.

(** The [useState] cells of the component. *)
Record State : Type := mkState {
  project : option Project;
  fixtures : list ExtendedFixture;
  allModels : list FixtureModel;
  totalCost : Z;
  loading : bool
}.

Definition initial : State := mkState None [] [] 0 true.

Definition setProject (p : option Project) : M State unit :=
  modify (fun s => mkState p (fixtures s) (allModels s) (totalCost s) (loading s)).
Definition setFixtures (l : list ExtendedFixture) : M State unit :=
  modify (fun s => mkState (project s) l (allModels s) (totalCost s) (loading s)).
Definition setAllModels (l : list FixtureModel) : M State unit :=
  modify (fun s => mkState (project s) (fixtures s) l (totalCost s) (loading s)).
Definition setTotalCost (t : Z) : M State unit :=
  modify (fun s => mkState (project s) (fixtures s) (allModels s) t (loading s)).
Definition setLoading (b : bool) : M State unit :=
  modify (fun s => mkState (project s) (fixtures s) (allModels s) (totalCost s) b).

(** The [reduce] of [calculateTotalCost] (its local [total]), in exact
    hundredths. *)
Definition total (fixturesList : list ExtendedFixture) : Z :=
  fold_left
    (fun sum fixture =>
       let price :=
         JS.chain_num (Fixture.selected_model fixture) FixtureModel.unit_price 0 in
       sum + price * Fixture.quantity fixture)
    fixturesList 0.

Definition calculateTotalCost (fixturesList : list ExtendedFixture)
    : M State unit :=
  setTotalCost (total fixturesList).

(** The body of the [map] in [loadProjectData]. *)
Definition withRecommendations (modelsData : option (list FixtureModel))
    (fixture : ExtendedFixture) : ExtendedFixture :=
  let currentType :=
    option_map FixtureModel.fixture_type (Fixture.selected_model fixture) in
  let recommendations :=
    firstn 3
      (filter
         (fun model =>
            JS.strict_eq (FixtureModel.fixture_type model) currentType
            && negb (JS.strict_eq (FixtureModel.id model)
                                  (Fixture.selected_model_id fixture)))
         (JS.or_undef modelsData [])) in
  Fixture.with_recommendations fixture recommendations false.

Definition loadProjectData (projectId : string)
    (projectAnswer : Response Project)
    (fixturesAnswer : Response (list ExtendedFixture))
    (modelsAnswer : Response (list FixtureModel)) : M State unit :=
  try_finally
    (try_catch
       (r1 <- await (SelectProject projectId) projectAnswer ;;
        throw_if (error r1) ;;
        setProject (data r1) ;;
        r2 <- await (SelectFixtures projectId) fixturesAnswer ;;
        throw_if (error r2) ;;
        r3 <- await SelectModels modelsAnswer ;;
        throw_if (error r3) ;;
        setAllModels (JS.or_undef (data r3) []) ;;
        let fixturesWithRecommendations :=
          map (withRecommendations (data r3)) (JS.or_undef (data r2) []) in
        setFixtures fixturesWithRecommendations ;;
        calculateTotalCost fixturesWithRecommendations)
       (fun error => console_error "Error loading project data:" error))
    (setLoading false).

(** The body of the [map] in [handleModelChange]. *)
Definition withSelection (fixtureId newModelId : string)
    (newModel : option FixtureModel) (fixture : ExtendedFixture)
    : ExtendedFixture :=
  if String.eqb (Fixture.id fixture) fixtureId
  then Fixture.with_selection fixture newModelId newModel
  else fixture.

(** The body of the [map] in [toggleRecommendations]. *)
Definition withToggle (fixtureId : string) (fixture : ExtendedFixture)
    : ExtendedFixture :=
  if String.eqb (Fixture.id fixture) fixtureId
  then Fixture.with_show fixture (JS.not (Fixture.showRecommendations fixture))
  else fixture.

(** [handleModelChange] closes over the [fixtures] and [allModels] of the
    render that created it. What follows its [await] inside the [try]
    works on these captured values, not on the state of the moment. *)
Definition afterUpdate (fixtures : list ExtendedFixture)
    (allModels : list FixtureModel) (fixtureId newModelId : string)
    (r : Response unit) : M State unit :=
  throw_if (error r) ;;
  let newModel :=
    find (fun m => String.eqb (FixtureModel.id m) newModelId) allModels in
  let updatedFixtures :=
    map (withSelection fixtureId newModelId newModel) fixtures in
  setFixtures updatedFixtures ;;
  calculateTotalCost updatedFixtures.

(** The [catch] of [handleModelChange]. *)
Definition catchUpdate (error : string) : M State unit :=
  console_error "Error updating fixture model:" error.

(** The handler of the render that holds [fixtures] and [allModels]. *)
Definition handleModelChangeOf (fixtures : list ExtendedFixture)
    (allModels : list FixtureModel) (fixtureId newModelId : string)
    (answer : Response unit) : M State unit :=
  try_catch
    (r <- await (UpdateSelectedModel fixtureId newModelId) answer ;;
     afterUpdate fixtures allModels fixtureId newModelId r)
    catchUpdate.

(** A click whose request is answered before anything else happens on the
    page: the render clicked shows the current state. *)
Definition handleModelChange (fixtureId newModelId : string)
    (answer : Response unit) : M State unit :=
  s <- get ;;
  handleModelChangeOf (fixtures s) (allModels s) fixtureId newModelId answer.

Definition toggleRecommendations (fixtureId : string) : M State unit :=
  s <- get ;;
  setFixtures (map (withToggle fixtureId) (fixtures s)).

(** The effect that runs when the page receives [projectId]:
    [if (projectId) loadProjectData()]. *)
Definition onProjectId (projectId : option string)
    (projectAnswer : Response Project)
    (fixturesAnswer : Response (list ExtendedFixture))
    (modelsAnswer : Response (list FixtureModel)) : M State unit :=
  match projectId with
  | None => ret tt
  | Some id =>
      if String.eqb id "" then ret tt
      else loadProjectData id projectAnswer fixturesAnswer modelsAnswer
  end.

(** *** A results session *)

(** What can happen to a mounted page: the effect that loads the project
    (run when [projectId] is set), a click on an alternative, a click on
    the toggle. The store's answers travel with the event. *)
Inductive Event : Type :=
| Load (projectId : string)
       (projectAnswer : Response Project)
       (fixturesAnswer : Response (list ExtendedFixture))
       (modelsAnswer : Response (list FixtureModel))
| ApplySelection (fixtureId newModelId : string) (answer : Response unit)
| ToggleRecommendations (fixtureId : string).

Definition handle (e : Event) : M State unit :=
  match e with
  | Load pid a1 a2 a3 => loadProjectData pid a1 a2 a3
  | ApplySelection fid mid a => handleModelChange fid mid a
  | ToggleRecommendations fid => toggleRecommendations fid
  end.

Definition step (w : World State) (e : Event) : World State :=
  exec (handle e) w.

Definition run (w : World State) (events : list Event) : World State :=
  fold_left step events w.

Definition mounted : World State := mkWorld initial [] [].

End Results.

(** ** Selection changes in flight *)

(** [handleModelChange] is asynchronous: between its request and the
    store's answer the page stays live, so other clicks can be served and
    other requests can be pending. Here a click and the answer to its
    request are separate events, and the answer is applied to what the
    handler captured at the click. *)
Module InFlight.

(** A request of [handleModelChange] that is not answered yet, with the
    [fixtures] and [allModels] its handler closed over. *)
Record Pending : Type := mkPending {
  fixtureId : string;
  newModelId : string;
  fixtures : list ExtendedFixture;
  allModels : list FixtureModel
}.

Record Page : Type := mkPage {
  world : World Results.State;
  pending : list Pending
}.

Inductive Event : Type :=
| Click (fixtureId newModelId : string)
| Answer (k : nat) (answer : Response unit)
| Toggle (fixtureId : string).

(** The request leaves; nothing else happens until it is answered. *)
Definition send (call : StoreCall) : M Results.State unit :=
  fun w => (Normal tt, mkWorld (ui w) (console w) (call :: calls w)).

Fixpoint remove {A : Type} (k : nat) (l : list A) : list A :=
  match l, k with
  | [], _ => []
  | _ :: rest, O => rest
  | x :: rest, S k' => x :: remove k' rest
  end.

(** [Click]: the handler of the current render starts. [Answer k]: the
    [k]-th pending request (oldest first) is answered and its handler
    finishes; without such a request nothing happens. [Toggle]: the
    synchronous [toggleRecommendations]. *)
Definition step (p : Page) (e : Event) : Page :=
  match e with
  | Click fid mid =>
      mkPage (exec (send (UpdateSelectedModel fid mid)) (world p))
        (pending p
         ++ [mkPending fid mid (Results.fixtures (ui (world p)))
               (Results.allModels (ui (world p)))])%list
  | Answer k answer =>
      match nth_error (pending p) k with
      | Some q =>
          mkPage
            (exec
               (try_catch
                  (Results.afterUpdate (fixtures q) (allModels q) (fixtureId q)
                     (newModelId q) answer)
                  Results.catchUpdate)
               (world p))
            (remove k (pending p))
      | None => p
      end
  | Toggle fid =>
      mkPage (exec (Results.toggleRecommendations fid) (world p)) (pending p)
  end.

Definition run (p : Page) (events : list Event) : Page :=
  fold_left step events p.

(** A page with no request pending. *)
Definition idle (w : World Results.State) : Page := mkPage w [].

End InFlight.

(** ** The total as [calculateTotalCost] computes it *)

(** JavaScript numbers are IEEE 754 binary64 values; the operations below
    are those of the standard library's specification of floating-point
    arithmetic at precision 53 and maximal exponent 1024, which round to
    nearest, ties to even. *)
Module Double.

Definition add : spec_float -> spec_float -> spec_float := SFadd 53 1024.
Definition sub : spec_float -> spec_float -> spec_float := SFsub 53 1024.
Definition mul : spec_float -> spec_float -> spec_float := SFmul 53 1024.
Definition div : spec_float -> spec_float -> spec_float := SFdiv 53 1024.
Definition eqb : spec_float -> spec_float -> bool := SFeqb.

Definition zero : spec_float := S754_zero false.

(** The double nearest to an integer; exact up to 2^53. *)
Definition ofZ (z : Z) : spec_float := binary_normalize 53 1024 z 0 false.

(** The number the page receives for a [numeric(10,2)] value of [c]
    hundredths: the double nearest to [c / 100] (both [c] and 100 are
    exact doubles and the division rounds correctly). *)
Definition ofHundredths (c : Z) : spec_float := div (ofZ c) (ofZ 100).

(** [x || 0]: zeros and NaN are falsy. *)
Definition or_zero (x : spec_float) : spec_float :=
  match x with
  | S754_zero _ | S754_nan => zero
  | _ => x
  end.

(** [fixture.selected_model?.unit_price || 0] *)
Definition price (fixture : ExtendedFixture) : spec_float :=
  match Fixture.selected_model fixture with
  | Some m => or_zero (ofHundredths (FixtureModel.unit_price m))
  | None => zero
  end.

(** [price * fixture.quantity] *)
Definition contribution (fixture : ExtendedFixture) : spec_float :=
  mul (price fixture) (ofZ (Fixture.quantity fixture)).

(** The [reduce] of [calculateTotalCost] on the numbers of the page. *)
Definition total (fixturesList : list ExtendedFixture) : spec_float :=
  fold_left
    (fun sum fixture =>
       let price := price fixture in
       add sum (mul price (ofZ (Fixture.quantity fixture))))
    fixturesList zero.

(** Neither an infinity nor NaN. *)
Definition finite (x : spec_float) : bool :=
  match x with
  | S754_zero _ | S754_finite _ _ _ => true
  | _ => false
  end.

(** The same number: the same value, or two zeros of any sign (which
    JavaScript's [===] does not tell apart). *)
Definition sameNumber (x y : spec_float) : Prop :=
  x = y \/ exists s t, x = S754_zero s /\ y = S754_zero t.

End Double.

(** ** Number formatting ([Number.prototype.toString], [toFixed]) *)

Module Format.

(** The decimal digits of a non-negative integer, most significant first. *)
Definition decimal (n : Z) : string := NilEmpty.string_of_uint (N.to_uint (Z.to_N n)).

Definition is_digit (c : ascii) : bool :=
  (48 <=? nat_of_ascii c)%nat && (nat_of_ascii c <=? 57)%nat.

Fixpoint all_digits (s : string) : bool :=
  match s with
  | EmptyString => true
  | String c r => is_digit c && all_digits r
  end.

Fixpoint zeros (n : nat) : string :=
  match n with
  | O => ""
  | S k => String "0" (zeros k)
  end.

Fixpoint strip_trailing_zeros (s : string) : string :=
  match s with
  | EmptyString => ""
  | String c r =>
      match strip_trailing_zeros r with
      | EmptyString => if Ascii.eqb c "0" then "" else String c ""
      | r' => String c r'
      end
  end.

(** Exponential notation of [Number::toString] for a positive value whose
    decimal digits are [m] and whose integer part has [n] digits, [n > 21]:
    the significant digits, a point after the first one when there are
    several, then [e+] and [n - 1]. *)
Definition exponential (m : string) (n : Z) : string :=
  match strip_trailing_zeros m with
  | EmptyString => "0"
  | String d EmptyString => String d ("e+" ++ decimal (n - 1))
  | String d rest => String d ("." ++ rest ++ "e+" ++ decimal (n - 1))
  end.

(** [q.toString()] for an integer-valued number [q], all of whose digits
    are printed; a double beyond 2^53 has fewer significant digits. *)
Definition toString (q : Z) : string :=
  let m := decimal (Z.abs q) in
  let n := Z.of_nat (String.length m) in
  let body := if 21 <? n then exponential m n else m in
  if q <? 0 then "-" ++ body else body.

(** [x.toFixed(2)] where [x] is [c] hundredths. Following the steps of the
    language standard: the sign is split off; a magnitude of at least 10^21
    falls back to [toString]; otherwise the digits of the integer [n] with
    [n / 100 = x] (here [n = |c|]) are padded on the left to three digits
    and a point is put before the last two. *)
Definition toFixed2 (c : Z) : string :=
  let s := if c <? 0 then "-" else "" in
  let n := Z.abs c in
  let m := decimal n in
  let k := String.length m in
  let m' :=
    if 10 ^ 23 <=? n then exponential m (Z.of_nat k - 2)
    else
      let padded := if (k <=? 2)%nat then zeros (2 + 1 - k) ++ m else m in
      let k' := String.length padded in
      substring 0 (k' - 2) padded ++ "." ++ substring (k' - 2) 2 padded in
  s ++ m'.

(** The rest of [^\$\d+\.\d{2}$] after the dollar sign; [seen] records that
    a digit has been read. *)
Fixpoint digits_point_2 (s : string) (seen : bool) : bool :=
  match s with
  | EmptyString => false
  | String c r =>
      if is_digit c then digits_point_2 r true
      else if Ascii.eqb c "." then
        seen &&
        match r with
        | String a (String b EmptyString) => is_digit a && is_digit b
        | _ => false
        end
      else false
  end.

(** A string matches the regular expression [^\$\d+\.\d{2}$]. *)
Definition money_format (s : string) : bool :=
  match s with
  | String c r => Ascii.eqb c "$" && digits_point_2 r false
  | EmptyString => false
  end.

End Format.

(** ** The PDF export of the results page *)

Module Exporter.

(** The calls made on the [jsPDF] document, in order. *)
Inductive DocOp : Type :=
| SetFontSize (size : Z)
| Text (text : string) (x y : Z)
| AutoTable (startY : Z) (head body : list (list string)) (theme : string)
            (fontSize : Z) (fillColor : list Z)
| Save (filename : string).

(** One element of [tableData]. The line total is printed from the exact
    product of hundredths; the product of doubles that the code prints has
    the same digits as long as it stays below about 9e13. *)
Definition tableRow (fixture : ExtendedFixture) : list string :=
  [ Fixture.detected_symbol fixture;
    Fixture.room_name fixture;
    JS.chain_str (Fixture.selected_model fixture) FixtureModel.model_name "N/A";
    JS.chain_str (Fixture.selected_model fixture) FixtureModel.manufacturer "N/A";
    Format.toString (Fixture.quantity fixture);
    "$" ++ JS.chain_str (Fixture.selected_model fixture)
             (fun m => Format.toFixed2 (FixtureModel.unit_price m)) "0.00";
    "$" ++ Format.toFixed2
             (JS.chain_num (Fixture.selected_model fixture)
                FixtureModel.unit_price 0
              * Fixture.quantity fixture) ].

(** [exportToPDF] on the current state; [today] is
    [new Date().toLocaleDateString()], [now] is [new Date().getTime()] and
    [finalY] is [lastAutoTable.finalY] as the table plugin leaves it. *)
Definition exportToPDF (s : Results.State) (today : string) (now : Z)
    (finalY : option Z) : list DocOp :=
  let tableData := map tableRow (Results.fixtures s) in
  let finalY' := JS.chain_num finalY (fun y => y) 50 in
  [ SetFontSize 20;
    Text "Lighting Analysis Quotation" 14 20;
    SetFontSize 11;
    Text ("Project: " ++ JS.chain_str (Results.project s) Project.name "N/A") 14 30;
    Text ("Date: " ++ today) 14 36;
    Text ("Total Cost: $" ++ Format.toFixed2 (Results.totalCost s)) 14 42;
    AutoTable 50
      [["Symbol"; "Room"; "Model"; "Manufacturer"; "Qty"; "Unit Price"; "Total"]]
      tableData "grid" 9 [59; 130; 246];
    SetFontSize 12;
    Text ("Total Project Cost: $" ++ Format.toFixed2 (Results.totalCost s))
         14 (finalY' + 10);
    Save (JS.chain_str (Results.project s) Project.name "quotation"
          ++ "_" ++ Format.toString now ++ ".pdf") ].

(** The body rows of the table of a document. *)
Fixpoint bodyRows (doc : list DocOp) : list (list string) :=
  match doc with
  | [] => []
  | AutoTable _ _ body _ _ _ :: rest => (body ++ bodyRows rest)%list
  | _ :: rest => bodyRows rest
  end.

(** The text lines written after the table. *)
Fixpoint textAfterTable (doc : list DocOp) : list string :=
  match doc with
  | [] => []
  | AutoTable _ _ _ _ _ _ :: rest =>
      flat_map (fun op => match op with Text t _ _ => [t] | _ => [] end) rest
  | _ :: rest => textAfterTable rest
  end.

(** The two money cells of a body row: unit price and line total. *)
Definition moneyCells (row : list string) : list string :=
  firstn 2 (skipn 5 row).

(** The two cells of a body row that name the model. *)
Definition modelCells (row : list string) : list string :=
  firstn 2 (skipn 2 row).

End Exporter.

(** ** The upload form ([src/pages/Upload.tsx]) *)

Module Upload.

Record File : Type := mkFile {
  name : string;
  size : Z
}.

(** The [useState] cells of the component, and the navigation that the
    success branch schedules with [setTimeout]. *)
Record State : Type := mkState {
  file : option File;
  projectName : string;
  uploading : bool;
  uploadProgress : Z;
  error : string;
  success : bool;
  navigation : option (string * string)
}.

Definition setUploading (b : bool) : M State unit :=
  modify (fun s => mkState (file s) (projectName s) b (uploadProgress s)
                     (error s) (success s) (navigation s)).
Definition setUploadProgress (p : Z) : M State unit :=
  modify (fun s => mkState (file s) (projectName s) (uploading s) p
                     (error s) (success s) (navigation s)).
Definition setError (e : string) : M State unit :=
  modify (fun s => mkState (file s) (projectName s) (uploading s)
                     (uploadProgress s) e (success s) (navigation s)).
Definition setSuccess (b : bool) : M State unit :=
  modify (fun s => mkState (file s) (projectName s) (uploading s)
                     (uploadProgress s) (error s) b (navigation s)).
Definition onNavigate (page projectId : string) : M State unit :=
  modify (fun s => mkState (file s) (projectName s) (uploading s)
                     (uploadProgress s) (error s) (success s)
                     (Some (page, projectId))).

(** White space of [String.prototype.trim] among the ASCII characters. *)
Definition is_space (c : ascii) : bool :=
  let n := nat_of_ascii c in
  ((9 <=? n)%nat && (n <=? 13)%nat) || (n =? 32)%nat.

(** The white space and line terminators of [trim] outside ASCII that
    take three bytes: U+1680, U+2000 to U+200A, U+2028, U+2029, U+202F,
    U+205F, U+3000 and U+FEFF. *)
Definition is_space3 (c1 c2 c3 : ascii) : bool :=
  let n1 := nat_of_ascii c1 in
  let n2 := nat_of_ascii c2 in
  let n3 := nat_of_ascii c3 in
  ((n1 =? 225) && (n2 =? 154) && (n3 =? 128))%nat
  || ((n1 =? 226) && (n2 =? 128)
      && (((128 <=? n3) && (n3 <=? 138)) || (n3 =? 168) || (n3 =? 169)
          || (n3 =? 175)))%nat
  || ((n1 =? 226) && (n2 =? 129) && (n3 =? 159))%nat
  || ((n1 =? 227) && (n2 =? 128) && (n3 =? 128))%nat
  || ((n1 =? 239) && (n2 =? 187) && (n3 =? 191))%nat.

(** [!s.trim()]: nothing is left of [s] once white space is trimmed, that
    is, [s] is made of white space and line terminators only: the ASCII
    ones, U+00A0 (two bytes) and the three-byte ones. *)
Fixpoint blank (s : string) : bool :=
  match s with
  | EmptyString => true
  | String c1 r1 =>
      if is_space c1 then blank r1
      else
        match r1 with
        | EmptyString => false
        | String c2 r2 =>
            if ((nat_of_ascii c1 =? 194) && (nat_of_ascii c2 =? 160))%nat
            then blank r2
            else
              match r2 with
              | EmptyString => false
              | String c3 r3 => if is_space3 c1 c2 c3 then blank r3 else false
              end
        end
  end.

(** [s.split('.').pop()]: what follows the last point, [seg] being what has
    been read since the last one. *)
Fixpoint lastSegment (s seg : string) : string :=
  match s with
  | EmptyString => seg
  | String c r =>
      if Ascii.eqb c "." then lastSegment r ""
      else lastSegment r (seg ++ String c "")
  end.

(** [toLowerCase] on ASCII letters. *)
Definition lower (c : ascii) : ascii :=
  let n := nat_of_ascii c in
  if (65 <=? n)%nat && (n <=? 90)%nat then ascii_of_nat (n + 32) else c.

Fixpoint toLowerCase (s : string) : string :=
  match s with
  | EmptyString => ""
  | String c r => String (lower c) (toLowerCase r)
  end.

(** [a[k]]: [undefined] outside the array. *)
Definition index {A : Type} (a : list A) (k : Z) : option A :=
  if k <? 0 then None else nth_error a (Z.to_nat k).

(** A whole number as stored in a [numeric(10,2)] column. *)
Definition whole (n : Z) : Z := 100 * n.

Definition setFile (f : option File) : M State unit :=
  modify (fun s => mkState f (projectName s) (uploading s) (uploadProgress s)
                     (error s) (success s) (navigation s)).
Definition setProjectName (n : string) : M State unit :=
  modify (fun s => mkState (file s) n (uploading s) (uploadProgress s)
                     (error s) (success s) (navigation s)).

(** [s.replace(/\.(dwg|dxf)$/i, '')]: the match, if any, is a point followed
    by exactly the three letters, in either case, at the end of [s]. *)
Fixpoint stripCadExtension (s : string) : string :=
  match s with
  | EmptyString => ""
  | String c r =>
      if Ascii.eqb c "."
         && (String.eqb (toLowerCase r) "dwg" || String.eqb (toLowerCase r) "dxf")
      then ""
      else String c (stripCadExtension r)
  end.

(** The change handler of the file input; [selectedFile] is
    [e.target.files?.[0]]. *)
Definition handleFileChange (selectedFile : option File) : M State unit :=
  setError "" ;;
  setSuccess false ;;
  match selectedFile with
  | None => ret tt
  | Some selectedFile =>
      let fileExtension := toLowerCase (lastSegment (name selectedFile) "") in
      if negb (String.eqb fileExtension "dwg")
         && negb (String.eqb fileExtension "dxf")
      then setError "Please upload a valid .dwg or .dxf file" ;; setFile None
      else if 50 * 1024 * 1024 <? size selectedFile
      then setError "File size must be less than 50MB" ;; setFile None
      else
        setFile (Some selectedFile) ;;
        s <- get ;;
        if String.eqb (projectName s) ""
        then setProjectName (stripCadExtension (name selectedFile))
        else ret tt
  end.

(** The drop handler of the drop zone; [droppedFile] is
    [e.dataTransfer.files?.[0]]. *)
Definition handleDrop (droppedFile : option File) : M State unit :=
  match droppedFile with
  | None => ret tt
  | Some droppedFile =>
      let fileExtension := toLowerCase (lastSegment (name droppedFile) "") in
      if negb (String.eqb fileExtension "dwg")
         && negb (String.eqb fileExtension "dxf")
      then setError "Please upload a valid .dwg or .dxf file"
      else if 50 * 1024 * 1024 <? size droppedFile
      then setError "File size must be less than 50MB"
      else
        setFile (Some droppedFile) ;;
        s <- get ;;
        (if String.eqb (projectName s) ""
         then setProjectName (stripCadExtension (name droppedFile))
         else ret tt) ;;
        setError "" ;;
        setSuccess false
  end.

(** The button that removes the chosen file (the reset of the input
    element's value is outside the component state). *)
Definition removeFile : M State unit :=
  setFile None ;;
  setError "" ;;
  setSuccess false.

Section Random.

(** [random n] is what the [n]-th call of [Math.random()] returns, counting
    from 0 in program order. *)
Variable random : nat -> Q.

(** [Math.floor(Math.random() * k)] at the [n]-th call, with the product
    taken exactly: the rounding of the double product, which can lift a
    product just below an integer onto it, is not modelled. *)
Definition randomBelow (n : nat) (k : Z) : Z :=
  Qfloor (random n * inject_Z k).

Definition rooms : list string :=
  ["Office 1"; "Conference Room"; "Lobby"; "Hallway"; "Workshop"].
Definition symbols : list string :=
  ["LIGHT_01"; "LIGHT_02"; "LIGHT_03"; "DOWNLIGHT"; "PANEL_600"].

(** The object pushed at iteration [i] of the loop; reading [.id] of an
    [undefined] model throws. Two calls of [Math.random()] precede the
    loop and every iteration makes five. *)
Definition fixtureRow (projectId : string) (models : list FixtureModel)
    (i : nat) : completion FixtureInsert :=
  let n := (2 + 5 * i)%nat in
  match index models (randomBelow n (Z.of_nat (List.length models))) with
  | None => Abrupt "TypeError"
  | Some randomModel =>
      Normal
        (mkFixtureInsert projectId
           (index rooms (randomBelow (n + 1) (Z.of_nat (List.length rooms))))
           (index symbols (randomBelow (n + 2) (Z.of_nat (List.length symbols))))
           (FixtureModel.id randomModel)
           (randomBelow (n + 3) 5 + 1)
           (whole (randomBelow (n + 4) 200 + 300)))
  end.

(** [for (let i = from; i < from + count; i++) fixturesData.push(...)] *)
Fixpoint pushRows (projectId : string) (models : list FixtureModel)
    (from count : nat) (fixturesData : list FixtureInsert)
    : completion (list FixtureInsert) :=
  match count with
  | O => Normal fixturesData
  | S count' =>
      match fixtureRow projectId models from with
      | Normal row =>
          pushRows projectId models (S from) count' (fixturesData ++ [row])%list
      | Abrupt e => Abrupt e
      end
  end.

Definition lift {A : Type} (c : completion A) : M State A := fun w => (c, w).

(** The progress bar: [for (let i = 0; i <= 100; i += 10)]. *)
Definition simulateProcessing : M State unit :=
  fold_left (fun m i => m ;; setUploadProgress i)
    [0; 10; 20; 30; 40; 50; 60; 70; 80; 90; 100] (ret tt).

Definition handleSubmit (insertAnswer : Response Project)
    (modelsAnswer : Response (list FixtureModel))
    (fixturesAnswer : Response unit) : M State unit :=
  setError "" ;;
  setSuccess false ;;
  s <- get ;;
  match file s with
  | None => setError "Please select a file to upload"
  | Some file =>
      if blank (projectName s) then setError "Please enter a project name"
      else
        setUploading true ;;
        setUploadProgress 0 ;;
        try_finally
          (try_catch
             (simulateProcessing ;;
              let fileType :=
                JS.or_str (toLowerCase (lastSegment (name file) "")) "" in
              let totalFixtures := randomBelow 0 50 + 10 in
              let avgCostPerFixture := 3550 in
              let totalCost := totalFixtures * avgCostPerFixture in
              let avgLux := randomBelow 1 200 + 300 in
              r1 <- await
                      (InsertProject
                         (mkProjectInsert (projectName s) (name file) fileType
                            totalFixtures totalCost (whole avgLux)
                            "00000000-0000-0000-0000-000000000000"))
                      insertAnswer ;;
              throw_if (Supabase.error r1) ;;
              r2 <- await (SelectModelsLimit 5) modelsAnswer ;;
              throw_if (Supabase.error r2) ;;
              match data r1, data r2 with
              | Some projectData, Some models =>
                  fixturesData <-
                    lift (pushRows (Project.id projectData) models 0
                            (Z.to_nat (Z.min totalFixtures 15)) []) ;;
                  r3 <- await (InsertFixtures fixturesData) fixturesAnswer ;;
                  throw_if (Supabase.error r3) ;;
                  setSuccess true ;;
                  onNavigate "results" (Project.id projectData)
              | _, _ => ret tt
              end)
             (fun err =>
                console_error "Upload error:" err ;;
                setError "Failed to upload and process file. Please try again."))
          (setUploading false)
  end.

End Random.

End Upload.

(** ** The specification's formulas and predicates *)

Module Spec.

(** [fixture.selectedModel?.unitPrice ?? 0] *)
Definition unitPriceOrZero (fixture : ExtendedFixture) : Z :=
  match Fixture.selected_model fixture with
  | Some m => FixtureModel.unit_price m
  | None => 0
  end.

(** [Σ (fixture.selectedModel?.unitPrice ?? 0) × fixture.quantity] *)
Fixpoint total (fixtures : list ExtendedFixture) : Z :=
  match fixtures with
  | [] => 0
  | fixture :: rest =>
      unitPriceOrZero fixture * Fixture.quantity fixture + total rest
  end.

(** The displayed total is the sum over the fixtures held in memory. *)
Definition costInvariant (s : Results.State) : Prop :=
  Results.totalCost s = total (Results.fixtures s).

(** The recommendation list of a fixture as the page reads it
    ([fixture.recommendations && ...]). *)
Definition recommendationList (fixture : ExtendedFixture) : list FixtureModel :=
  JS.or_undef (Fixture.recommendations fixture) [].

(** No recommended model carries the fixture's selected model id. *)
Definition excludesSelection (fixture : ExtendedFixture) : bool :=
  forallb
    (fun model =>
       negb (JS.strict_eq (FixtureModel.id model)
                          (Fixture.selected_model_id fixture)))
    (recommendationList fixture).

Definition atMostThree (fixture : ExtendedFixture) : bool :=
  (List.length (recommendationList fixture) <=? 3)%nat.

(** The visibility flag of a fixture has been set. *)
Definition visibilitySet (fixture : ExtendedFixture) : bool :=
  match Fixture.showRecommendations fixture with
  | Some _ => true
  | None => false
  end.

(** An event that replaces no fixture's selection: anything but an
    [ApplySelection] the store accepts. *)
Definition keepsSelections (e : Results.Event) : bool :=
  match e with
  | Results.ApplySelection _ _ answer =>
      match error answer with Some _ => true | None => false end
  | _ => true
  end.

(** Two fixtures that differ at most in the selected model. *)
Definition sameButSelection (f g : ExtendedFixture) : Prop :=
  Fixture.id g = Fixture.id f /\
  Fixture.project_id g = Fixture.project_id f /\
  Fixture.room_name g = Fixture.room_name f /\
  Fixture.detected_symbol g = Fixture.detected_symbol f /\
  Fixture.quantity g = Fixture.quantity f /\
  Fixture.lux_level g = Fixture.lux_level f /\
  Fixture.created_at g = Fixture.created_at f /\
  Fixture.recommendations g = Fixture.recommendations f /\
  Fixture.showRecommendations g = Fixture.showRecommendations f.

(** Two fixtures that differ at most in the visibility flag. *)
Definition sameButVisibility (f g : ExtendedFixture) : Prop :=
  Fixture.id g = Fixture.id f /\
  Fixture.project_id g = Fixture.project_id f /\
  Fixture.room_name g = Fixture.room_name f /\
  Fixture.detected_symbol g = Fixture.detected_symbol f /\
  Fixture.selected_model_id g = Fixture.selected_model_id f /\
  Fixture.quantity g = Fixture.quantity f /\
  Fixture.lux_level g = Fixture.lux_level f /\
  Fixture.created_at g = Fixture.created_at f /\
  Fixture.selected_model g = Fixture.selected_model f /\
  Fixture.recommendations g = Fixture.recommendations f.

(** [newModelId] names a model of the loaded catalog. *)
Definition inCatalog (newModelId : string) (catalog : list FixtureModel) : bool :=
  existsb (fun m => String.eqb (FixtureModel.id m) newModelId) catalog.

(** Ranges of the schema: [unit_price numeric(10,2)], not negative, and
    [quantity integer], not negative. *)
Definition inRange (fixture : ExtendedFixture) : bool :=
  match Fixture.selected_model fixture with
  | Some m =>
      (0 <=? FixtureModel.unit_price m)
      && (FixtureModel.unit_price m <=? 9999999999)
  | None => true
  end
  && (0 <=? Fixture.quantity fixture)
  && (Fixture.quantity fixture <=? 2147483647).

(** The cells of a table row that are read from the selected model: model
    name, manufacturer, unit price, line total. *)
Definition modelDerivedCells (row : list string) : list string :=
  (Exporter.modelCells row ++ Exporter.moneyCells row)%list.

End Spec.

(** ** Sample data, from the seed rows of the schema migration *)

Module Sample.

Definition panel40 : FixtureModel :=
  FixtureModel.mk "m-1" "LED-P600-40W" "BrightLite" "LED Panel"
    4000 400000 4599 "600x600mm LED panel, 4000K, high efficiency" "2024-01-01".
Definition panel36 : FixtureModel :=
  FixtureModel.mk "m-2" "LED-P600-36W" "EcoLight" "LED Panel"
    3600 380000 4250 "600x600mm LED panel, energy saving" "2024-01-01".
Definition tube : FixtureModel :=
  FixtureModel.mk "m-3" "FL-T8-36W" "StandardCorp" "Fluorescent"
    3600 280000 1299 "T8 fluorescent tube, standard output" "2024-01-01".

Definition catalog : list FixtureModel := [panel40; panel36; tube].

Definition project : Project :=
  Project.mk "p-1" "Office" "office.dxf" "dxf" "2024-01-02" 12 42600 35000
    "00000000-0000-0000-0000-000000000000" "2024-01-02".

(** A row of [fixtures] as the join returns it. *)
Definition row (id : string) (quantity : Z) (model : option FixtureModel)
    : ExtendedFixture :=
  Fixture.mk id "p-1" "Lobby" "LIGHT_01" (option_map FixtureModel.id model)
    quantity 32000 "2024-01-02" model None None.

(** Two fixtures: 2 at 45.99 and 1 at 12.99. *)
Definition rows : list ExtendedFixture :=
  [row "f-1" 2 (Some panel40); row "f-2" 1 (Some tube)].

Definition loaded : World Results.State :=
  Results.run Results.mounted
    [Results.Load "p-1" (ok project) (ok rows) (ok catalog)].

Definition upload : World Upload.State :=
  mkWorld
    (Upload.mkState (Some (Upload.mkFile "office.DXF" 1024)) "Office"
       false 0 "" false None)
    [] [].

End Sample.

(** ** The application shell ([src/App.tsx]) *)

Module App.

Record State : Type := mkState {
  currentPage : string;
  selectedProjectId : option string
}.

Definition initial : State := mkState "dashboard" None.

Definition handleNavigate (page : string) (projectId : option string)
    (s : State) : State :=
  mkState page projectId.

(** The page component [renderPage] returns, with its props. *)
Inductive Page : Type :=
| Dashboard
| Upload
| Results (projectId : option string)
| Reports
| Profile.

Definition renderPage (s : State) : Page :=
  if String.eqb (currentPage s) "dashboard" then Dashboard
  else if String.eqb (currentPage s) "upload" then Upload
  else if String.eqb (currentPage s) "results" then Results (selectedProjectId s)
  else if String.eqb (currentPage s) "reports" then Reports
  else if String.eqb (currentPage s) "profile" then Profile
  else Dashboard.

End App.

(** ** Predicates used by the further properties *)

Module Checks.

Definition isLoad (e : Results.Event) : bool :=
  match e with
  | Results.Load _ _ _ _ => true
  | _ => false
  end.

(** The test of the [filter] in [loadProjectData]: a catalog model of the
    type of the fixture's selected model, under another id. *)
Definition alternativeTo (fixture : ExtendedFixture) (model : FixtureModel)
    : bool :=
  JS.strict_eq (FixtureModel.fixture_type model)
    (option_map FixtureModel.fixture_type (Fixture.selected_model fixture))
  && negb (JS.strict_eq (FixtureModel.id model)
                        (Fixture.selected_model_id fixture)).

(** The letters [dwg] or [dxf], in either case. *)
Definition cadExtension (ext : string) : bool :=
  String.eqb (Upload.toLowerCase ext) "dwg"
  || String.eqb (Upload.toLowerCase ext) "dxf".

(** A file the two file handlers take: extension [dwg] or [dxf] in any
    case, at most 50 MB. *)
Definition acceptable (f : Upload.File) : bool :=
  let ext := Upload.toLowerCase (Upload.lastSegment (Upload.name f) "") in
  (String.eqb ext "dwg" || String.eqb ext "dxf")
  && (Upload.size f <=? 52428800).

(** The character [.] occurs in a string. *)
Fixpoint hasPoint (s : string) : bool :=
  match s with
  | EmptyString => false
  | String c r => Ascii.eqb c "." || hasPoint r
  end.

(** Two fixtures that agree on everything a stored row carries. *)
Definition sameRow (f g : ExtendedFixture) : Prop :=
  Fixture.id g = Fixture.id f /\
  Fixture.project_id g = Fixture.project_id f /\
  Fixture.room_name g = Fixture.room_name f /\
  Fixture.detected_symbol g = Fixture.detected_symbol f /\
  Fixture.selected_model_id g = Fixture.selected_model_id f /\
  Fixture.quantity g = Fixture.quantity f /\
  Fixture.lux_level g = Fixture.lux_level f /\
  Fixture.created_at g = Fixture.created_at f /\
  Fixture.selected_model g = Fixture.selected_model f.

(** A load whose three requests the store accepts. *)
Definition loadSucceeds (e : Results.Event) : bool :=
  match e with
  | Results.Load _ a1 a2 a3 =>
      match error a1, error a2, error a3 with
      | None, None, None => true
      | _, _, _ => false
      end
  | _ => false
  end.

(** The fixture ids whose selection was changed by an accepted
    [ApplySelection] since the last successful load: [acc] before the
    event, the result after it. *)
Definition reselect (acc : list string) (e : Results.Event) : list string :=
  match e with
  | Results.Load _ _ _ _ => if loadSucceeds e then [] else acc
  | Results.ApplySelection fixtureId _ answer =>
      match error answer with
      | None => fixtureId :: acc
      | Some _ => acc
      end
  | Results.ToggleRecommendations _ => acc
  end.

Definition reselected (events : list Results.Event) : list string :=
  fold_left reselect events [].

End Checks.

(** ** Sample pages for the rounding of totals *)

Module Rounding.

(** One fixture at 45.99 and three at 12.99: 84.96 in exact hundredths. *)
Definition mixed : list ExtendedFixture :=
  [Sample.row "f-1" 1 (Some Sample.panel40); Sample.row "f-2" 3 (Some Sample.tube)].

(** A loaded page with one fixture, three panels at 45.99. *)
Definition threePanels : World Results.State :=
  Results.run Results.mounted
    [Results.Load "p-1" (ok Sample.project)
       (ok [Sample.row "f-1" 3 (Some Sample.panel40)]) (ok Sample.catalog)].

End Rounding.

(** * Properties *)

(** ** The cost aggregator *)

Lemma or_num_zero (a : Z) : JS.or_num a 0 = a.
Proof.
  unfold JS.or_num. destruct (Z.eqb_spec a 0); congruence.
Qed.

Lemma chain_num_price (fixture : ExtendedFixture) :
  JS.chain_num (Fixture.selected_model fixture) FixtureModel.unit_price 0
  = Spec.unitPriceOrZero fixture.
Proof.
  unfold JS.chain_num, Spec.unitPriceOrZero.
  destruct (Fixture.selected_model fixture); [apply or_num_zero | reflexivity].
Qed.

Lemma reduce_from (fixturesList : list ExtendedFixture) (sum : Z) :
  fold_left
    (fun sum fixture =>
       sum + JS.chain_num (Fixture.selected_model fixture)
               FixtureModel.unit_price 0 * Fixture.quantity fixture)
    fixturesList sum
  = sum + Spec.total fixturesList.
Proof.
  revert sum. induction fixturesList as [|fixture rest IH]; intro sum; simpl.
  - lia.
  - rewrite IH, chain_num_price. lia.
Qed.

Lemma total_is_sum (fixturesList : list ExtendedFixture) :
  Results.total fixturesList = Spec.total fixturesList.
Proof.
  unfold Results.total. rewrite reduce_from. lia.
Qed.

Lemma sum_app (l1 l2 : list ExtendedFixture) :
  Spec.total (l1 ++ l2) = Spec.total l1 + Spec.total l2.
Proof.
  induction l1 as [|f l1 IH]; simpl; [reflexivity | rewrite IH; lia].
Qed.

(** When [g] keeps the price and the quantity of every fixture, the sum
    over the mapped list is the sum over the list. *)
Lemma sum_map_same (g : ExtendedFixture -> ExtendedFixture)
    (l : list ExtendedFixture) :
  (forall f, Spec.unitPriceOrZero (g f) = Spec.unitPriceOrZero f) ->
  (forall f, Fixture.quantity (g f) = Fixture.quantity f) ->
  Spec.total (map g l) = Spec.total l.
Proof.
  intros Hp Hq. induction l as [|f l IH]; simpl; [reflexivity|].
  rewrite Hp, Hq, IH. reflexivity.
Qed.

(** *** The doubles of [calculateTotalCost] *)

Lemma double_total_snoc (l : list ExtendedFixture) (f : ExtendedFixture) :
  Double.total (l ++ [f]) = Double.add (Double.total l) (Double.contribution f).
Proof. unfold Double.total. rewrite fold_left_app. reflexivity. Qed.

Lemma double_total_contributions (l : list ExtendedFixture) :
  Double.total l
  = fold_left Double.add (map Double.contribution l) Double.zero.
Proof.
  unfold Double.total. generalize Double.zero.
  induction l as [|f l IH]; intro sum; simpl; [reflexivity | apply IH].
Qed.

Lemma add_zero_sameNumber (x : spec_float) (s : bool) :
  Double.sameNumber (Double.add x (S754_zero s)) x.
Proof.
  destruct x as [sx|sx| |sx m e]; try (left; reflexivity).
  right. destruct sx, s; simpl; eauto.
Qed.

Lemma add_sameNumber (a b y : spec_float) :
  Double.sameNumber a b ->
  Double.sameNumber (Double.add a y) (Double.add b y).
Proof.
  intros [->|[s [t [-> ->]]]]; [left; reflexivity|].
  destruct y as [sy|sy| |sy m e]; try (left; reflexivity).
  right. destruct s, t, sy; simpl; eauto.
Qed.

Lemma fold_sameNumber (l : list ExtendedFixture) :
  forall a b,
    Double.sameNumber a b ->
    Double.sameNumber
      (fold_left (fun sum f => Double.add sum (Double.contribution f)) l a)
      (fold_left (fun sum f => Double.add sum (Double.contribution f)) l b).
Proof.
  induction l as [|f l IH]; intros a b H; simpl; [exact H|].
  apply IH, add_sameNumber, H.
Qed.

Lemma mul_zero_finite (q : spec_float) :
  Double.finite q = true ->
  exists s, Double.mul Double.zero q = S754_zero s.
Proof.
  destruct q as [sq|sq| |sq m e]; intro H; try discriminate H; simpl; eauto.
Qed.

(** C1, as stated, fails: for one fixture at 45.99 and three at 12.99 the
    double that [calculateTotalCost] computes is 84.96000000000001, not
    the double 84.96 of the sum. *)
Lemma total_is_not_the_exact_sum :
  ~ (forall fixturesList,
        Double.eqb (Double.total fixturesList)
          (Double.ofHundredths (Spec.total fixturesList)) = true).
Proof.
  intro claim. specialize (claim Rounding.mixed).
  vm_compute in claim. discriminate claim.
Qed.

(** C1, amended. For every list of fixtures [calculateTotalCost] computes
    the sum from left to right in binary64 arithmetic: it starts from 0 and,
    for each fixture in turn, adds the product of the selected model's unit
    price (0 without a resolved model) and the quantity, rounding after
    each operation. The total of the empty list is 0; a fixture without a
    resolved model and with a finite quantity leaves the total the same
    number wherever it stands; two fixtures, 2 at 45.99 and 1 at 12.99,
    total the double 104.97. The computation is total: nothing is
    thrown. *)
Theorem calculateTotalCost_rounded_sum :
  Double.total [] = Double.zero /\
  (forall fixturesList fixture,
      Double.total (fixturesList ++ [fixture])%list
      = Double.add (Double.total fixturesList)
          (Double.mul (Double.price fixture)
             (Double.ofZ (Fixture.quantity fixture)))) /\
  (forall before after id project_id room symbol model_id quantity lux created
          recs shown,
      Double.finite (Double.ofZ quantity) = true ->
      Double.sameNumber
        (Double.total
           (before
            ++ Fixture.mk id project_id room symbol model_id quantity lux
                 created None recs shown
            :: after)%list)
        (Double.total (before ++ after)%list)) /\
  Double.total Sample.rows = Double.ofHundredths 10497.
Proof.
  split; [reflexivity|]. split; [exact double_total_snoc|].
  split; [|vm_compute; reflexivity].
  intros before after id project_id room symbol model_id quantity lux created
    recs shown Hfinite.
  unfold Double.total. rewrite !fold_left_app. cbn [fold_left].
  apply fold_sameNumber.
  destruct (mul_zero_finite _ Hfinite) as [s Hs].
  change (Double.price
            (Fixture.mk id project_id room symbol model_id quantity lux created
               None recs shown)) with Double.zero.
  cbn [Fixture.quantity]. rewrite Hs. apply add_zero_sameNumber.
Qed.

(** ** What each handler of the results page does to the world *)

(** A selection change that the store accepts. *)
Lemma handleModelChange_accepted (w : World Results.State)
    (fixtureId newModelId : string) (d : option unit) :
  Results.handleModelChange fixtureId newModelId (mkResponse d None) w
  = let s := ui w in
    let newModel :=
      find (fun m => String.eqb (FixtureModel.id m) newModelId)
        (Results.allModels s) in
    let updatedFixtures :=
      map (Results.withSelection fixtureId newModelId newModel)
        (Results.fixtures s) in
    (Normal tt,
     mkWorld
       (Results.mkState (Results.project s) updatedFixtures
          (Results.allModels s) (Results.total updatedFixtures)
          (Results.loading s))
       (console w)
       (UpdateSelectedModel fixtureId newModelId :: calls w)).
Proof. reflexivity. Qed.

(** A selection change that the store rejects. *)
Lemma handleModelChange_rejected (w : World Results.State)
    (fixtureId newModelId e : string) (d : option unit) :
  Results.handleModelChange fixtureId newModelId (mkResponse d (Some e)) w
  = (Normal tt,
     mkWorld (ui w)
       (("Error updating fixture model:", e) :: console w)
       (UpdateSelectedModel fixtureId newModelId :: calls w)).
Proof. reflexivity. Qed.

Lemma toggleRecommendations_world (w : World Results.State)
    (fixtureId : string) :
  Results.toggleRecommendations fixtureId w
  = let s := ui w in
    (Normal tt,
     mkWorld
       (Results.mkState (Results.project s)
          (map (Results.withToggle fixtureId) (Results.fixtures s))
          (Results.allModels s) (Results.totalCost s) (Results.loading s))
       (console w) (calls w)).
Proof. reflexivity. Qed.

(** A load in which the three requests succeed. *)
Lemma loadProjectData_loaded (w : World Results.State) (projectId : string)
    (p : option Project) (fs : option (list ExtendedFixture))
    (ms : option (list FixtureModel)) :
  Results.loadProjectData projectId (mkResponse p None) (mkResponse fs None)
    (mkResponse ms None) w
  = let loaded :=
      map (Results.withRecommendations ms) (JS.or_undef fs []) in
    (Normal tt,
     mkWorld
       (Results.mkState p loaded (JS.or_undef ms []) (Results.total loaded) false)
       (console w)
       (SelectModels :: SelectFixtures projectId :: SelectProject projectId
        :: calls w)).
Proof. reflexivity. Qed.

(** Whatever the store answers, a load either installs the enriched
    fixtures with their recomputed total, or leaves both the fixtures and
    the total as they were. *)
Lemma loadProjectData_cases (w : World Results.State) (projectId : string)
    (a1 : Response Project) (a2 : Response (list ExtendedFixture))
    (a3 : Response (list FixtureModel)) :
  let w' := exec (Results.loadProjectData projectId a1 a2 a3) w in
  (Results.fixtures (ui w')
   = map (Results.withRecommendations (data a3)) (JS.or_undef (data a2) [])
   /\ Results.totalCost (ui w') = Results.total (Results.fixtures (ui w')))
  \/ (Results.fixtures (ui w') = Results.fixtures (ui w)
      /\ Results.totalCost (ui w') = Results.totalCost (ui w)).
Proof.
  destruct a1 as [d1 [e1|]], a2 as [d2 [e2|]], a3 as [d3 [e3|]];
    cbv zeta; try (right; split; reflexivity).
  left. split; reflexivity.
Qed.

(** ** C2: the displayed total follows the fixtures *)

Lemma toggle_keeps_sum (fixtureId : string) (l : list ExtendedFixture) :
  Spec.total (map (Results.withToggle fixtureId) l) = Spec.total l.
Proof.
  apply sum_map_same; intro f; unfold Results.withToggle;
    destruct (String.eqb (Fixture.id f) fixtureId); reflexivity.
Qed.




(** ** C4: a rejected update changes nothing in memory *)

(** C4. When the store answers the update of [handleModelChange] with an
    error, the component state afterwards (fixtures, total cost and the
    rest) is the state before the call, the error is written to the console
    with the handler's message, the request is the only one sent, and the
    handler completes normally. *)
Theorem rejected_update_keeps_state :
  forall (w : World Results.State) (fixtureId newModelId e : string)
         (d : option unit),
    let answer := mkResponse d (Some e) in
    let w' := Results.step w (Results.ApplySelection fixtureId newModelId answer) in
    ui w' = ui w /\
    Results.fixtures (ui w') = Results.fixtures (ui w) /\
    Results.totalCost (ui w') = Results.totalCost (ui w) /\
    console w' = ("Error updating fixture model:", e) :: console w /\
    calls w' = UpdateSelectedModel fixtureId newModelId :: calls w /\
    fst (Results.handleModelChange fixtureId newModelId answer w) = Normal tt.
Proof.
  intros. subst w' answer. unfold Results.step, Results.handle, exec.
  rewrite handleModelChange_rejected. repeat split; reflexivity.
Qed.

(** ** C3: the recommendation lists of a session *)

Lemma in_firstn {A : Type} (n : nat) (l : list A) (x : A) :
  In x (firstn n l) -> In x l.
Proof.
  revert l. induction n as [|n IH]; intros [|y l]; simpl; try tauto.
  intros [H|H]; [left; exact H | right; apply IH, H].
Qed.

Lemma withRecommendations_atMostThree (ms : option (list FixtureModel))
    (f : ExtendedFixture) :
  Spec.atMostThree (Results.withRecommendations ms f) = true.
Proof.
  unfold Spec.atMostThree, Results.withRecommendations, Spec.recommendationList,
    Fixture.with_recommendations.
  cbn [Fixture.recommendations JS.or_undef].
  apply Nat.leb_le, firstn_le_length.
Qed.

Lemma withRecommendations_excludesSelection (ms : option (list FixtureModel))
    (f : ExtendedFixture) :
  Spec.excludesSelection (Results.withRecommendations ms f) = true.
Proof.
  unfold Spec.excludesSelection, Results.withRecommendations,
    Spec.recommendationList, Fixture.with_recommendations.
  cbn [Fixture.recommendations Fixture.selected_model_id JS.or_undef].
  apply forallb_forall. intros model Hin.
  apply in_firstn, filter_In in Hin. destruct Hin as [_ Hp].
  apply andb_true_iff in Hp. exact (proj2 Hp).
Qed.

Lemma withRecommendations_visibilitySet (ms : option (list FixtureModel))
    (f : ExtendedFixture) :
  Spec.visibilitySet (Results.withRecommendations ms f) = true.
Proof. reflexivity. Qed.

(** A property of single fixtures that the enrichment of [loadProjectData]
    establishes and that the two [map]s of the handlers named by [keeps]
    preserve holds of every fixture after a step, if it held before. *)
Lemma step_keeps_fixture_property (P : ExtendedFixture -> bool)
    (keeps : Results.Event -> bool) :
  (forall ms f, P (Results.withRecommendations ms f) = true) ->
  (forall f, P f = true ->
             P (Fixture.with_show f (JS.not (Fixture.showRecommendations f)))
             = true) ->
  (forall f fixtureId newModelId d,
      keeps (Results.ApplySelection fixtureId newModelId (mkResponse d None))
      = true ->
      forall newModel,
        P f = true -> P (Fixture.with_selection f newModelId newModel) = true) ->
  forall w e,
    keeps e = true ->
    Forall (fun f => P f = true) (Results.fixtures (ui w)) ->
    Forall (fun f => P f = true) (Results.fixtures (ui (Results.step w e))).
Proof.
  intros Hload Hshow Hsel w e Hk Hw.
  destruct e as [pid a1 a2 a3|fid mid a|fid]; unfold Results.step, Results.handle.
  - destruct (loadProjectData_cases w pid a1 a2 a3) as [[Hf _]|[Hf _]];
      rewrite Hf; [|exact Hw].
    apply Forall_map, Forall_forall. intros f _. apply Hload.
  - unfold exec. destruct a as [d [e|]].
    + rewrite handleModelChange_rejected. exact Hw.
    + rewrite handleModelChange_accepted. cbn.
      apply Forall_map. revert Hw. apply Forall_impl. intros f Hf.
      unfold Results.withSelection.
      destruct (String.eqb (Fixture.id f) fid); [|exact Hf].
      apply (Hsel f fid mid d Hk), Hf.
  - unfold exec. rewrite toggleRecommendations_world. cbn.
    apply Forall_map. revert Hw. apply Forall_impl. intros f Hf.
    unfold Results.withToggle.
    destruct (String.eqb (Fixture.id f) fid); [|exact Hf].
    apply Hshow, Hf.
Qed.

Lemma run_keeps_fixture_property (P : ExtendedFixture -> bool)
    (keeps : Results.Event -> bool) :
  (forall ms f, P (Results.withRecommendations ms f) = true) ->
  (forall f, P f = true ->
             P (Fixture.with_show f (JS.not (Fixture.showRecommendations f)))
             = true) ->
  (forall f fixtureId newModelId d,
      keeps (Results.ApplySelection fixtureId newModelId (mkResponse d None))
      = true ->
      forall newModel,
        P f = true -> P (Fixture.with_selection f newModelId newModel) = true) ->
  forall events w,
    forallb keeps events = true ->
    Forall (fun f => P f = true) (Results.fixtures (ui w)) ->
    Forall (fun f => P f = true)
      (Results.fixtures (ui (Results.run w events))).
Proof.
  intros Hload Hshow Hsel.
  induction events as [|e events IH]; intros w Hk Hw; simpl; [exact Hw|].
  simpl in Hk. apply andb_true_iff in Hk. destruct Hk as [He Hk].
  apply IH; [exact Hk|].
  apply (step_keeps_fixture_property P keeps); assumption.
Qed.

Lemma reachable_atMostThree (events : list Results.Event) :
  Forall (fun f => Spec.atMostThree f = true)
    (Results.fixtures (ui (Results.run Results.mounted events))).
Proof.
  apply (run_keeps_fixture_property Spec.atMostThree (fun _ => true)).
  - exact withRecommendations_atMostThree.
  - intros f H. exact H.
  - intros f fid mid d _ m H. exact H.
  - apply forallb_forall. reflexivity.
  - constructor.
Qed.

Lemma reachable_visibilitySet (events : list Results.Event) :
  Forall (fun f => Spec.visibilitySet f = true)
    (Results.fixtures (ui (Results.run Results.mounted events))).
Proof.
  apply (run_keeps_fixture_property Spec.visibilitySet (fun _ => true)).
  - exact withRecommendations_visibilitySet.
  - reflexivity.
  - intros f fid mid d _ m H. exact H.
  - apply forallb_forall. reflexivity.
  - constructor.
Qed.

Lemma reachable_excludesSelection (events : list Results.Event) :
  forallb Spec.keepsSelections events = true ->
  Forall (fun f => Spec.excludesSelection f = true)
    (Results.fixtures (ui (Results.run Results.mounted events))).
Proof.
  intro Hk.
  apply (run_keeps_fixture_property Spec.excludesSelection Spec.keepsSelections).
  - exact withRecommendations_excludesSelection.
  - intros f H. exact H.
  - intros f fid mid d H. discriminate H.
  - exact Hk.
  - constructor.
Qed.

(** C3, as stated, fails: after a load and one accepted selection of the
    recommended model, the fixture's recommendation list still holds that
    model, which is now the selected one. *)
Lemma recommendations_may_hold_selection :
  ~ (forall events f,
        In f (Results.fixtures (ui (Results.run Results.mounted events))) ->
        Spec.excludesSelection f = true /\ Spec.atMostThree f = true).
Proof.
  intro claim.
  destruct
    (claim
       [Results.Load "p-1" (ok Sample.project) (ok Sample.rows) (ok Sample.catalog);
        Results.ApplySelection "f-1" "m-2" (ok tt)]
       (Fixture.mk "f-1" "p-1" "Lobby" "LIGHT_01" (Some "m-2") 2 32000
          "2024-01-02" (Some Sample.panel36) (Some [Sample.panel36])
          (Some false)))
    as [Hex _].
  - left. reflexivity.
  - discriminate Hex.
Qed.

(** Every fixture of the page either had its selection changed since the
    last successful load, or has a recommendation list without its selected
    model. *)
Lemma step_keeps_exclusion (w : World Results.State) (acc : list string)
    (e : Results.Event) :
  Forall (fun f => In (Fixture.id f) acc \/ Spec.excludesSelection f = true)
    (Results.fixtures (ui w)) ->
  Forall (fun f => In (Fixture.id f) (Checks.reselect acc e)
                   \/ Spec.excludesSelection f = true)
    (Results.fixtures (ui (Results.step w e))).
Proof.
  intro Hw. destruct e as [pid a1 a2 a3|fid mid a|fid];
    unfold Results.step, Results.handle.
  - destruct (loadProjectData_cases w pid a1 a2 a3) as [[Hf _]|[Hf _]].
    + rewrite Hf. apply Forall_map, Forall_forall. intros f _. right.
      apply withRecommendations_excludesSelection.
    + rewrite Hf.
      destruct a1 as [d1 [e1|]], a2 as [d2 [e2|]], a3 as [d3 [e3|]];
        try exact Hw.
      unfold exec in Hf. rewrite loadProjectData_loaded in Hf.
      cbn [snd ui Results.fixtures] in Hf. rewrite <- Hf.
      apply Forall_map, Forall_forall. intros f _. right.
      apply withRecommendations_excludesSelection.
  - unfold exec. destruct a as [d [e|]].
    + rewrite handleModelChange_rejected. exact Hw.
    + rewrite handleModelChange_accepted. cbn [snd ui Results.fixtures].
      cbn [Checks.reselect error].
      apply Forall_map. revert Hw. apply Forall_impl. intros f Hf.
      unfold Results.withSelection.
      destruct (String.eqb_spec (Fixture.id f) fid) as [Hid|Hid].
      * left. left. symmetry. exact Hid.
      * destruct Hf as [Hf|Hf]; [left; right; exact Hf | right; exact Hf].
  - unfold exec. rewrite toggleRecommendations_world.
    cbn [snd ui Results.fixtures Checks.reselect].
    apply Forall_map. revert Hw. apply Forall_impl. intros f Hf.
    unfold Results.withToggle.
    destruct (String.eqb (Fixture.id f) fid); exact Hf.
Qed.

Lemma run_keeps_exclusion (events : list Results.Event) :
  forall (w : World Results.State) (acc : list string),
    Forall (fun f => In (Fixture.id f) acc \/ Spec.excludesSelection f = true)
      (Results.fixtures (ui w)) ->
    Forall (fun f => In (Fixture.id f) (fold_left Checks.reselect events acc)
                     \/ Spec.excludesSelection f = true)
      (Results.fixtures (ui (Results.run w events))).
Proof.
  induction events as [|e events IH]; intros w acc Hw; simpl; [exact Hw|].
  apply IH, step_keeps_exclusion, Hw.
Qed.

(** C3, amended. In every state a session reaches, the recommendation list
    of every fixture has at most 3 entries, and it holds no model with the
    fixture's selected model id unless the selection of that fixture (of
    its id) was changed by an accepted [ApplySelection] since the last
    successful load. Toggles, rejected changes, failed loads and accepted
    changes of other fixtures keep the exclusion, and a successful load
    restores it for every fixture. *)
Theorem recommendations_bounded_and_exclusive :
  forall events f,
    In f (Results.fixtures (ui (Results.run Results.mounted events))) ->
    Spec.atMostThree f = true /\
    (~ In (Fixture.id f) (Checks.reselected events) ->
     Spec.excludesSelection f = true).
Proof.
  intros events f Hin. split.
  - exact (proj1 (Forall_forall _ _) (reachable_atMostThree events) f Hin).
  - intro Hnot.
    pose proof (run_keeps_exclusion events Results.mounted [] (Forall_nil _))
      as Hall.
    destruct (proj1 (Forall_forall _ _) Hall f Hin) as [H|H];
      [contradiction | exact H].
Qed.

(** The amended C3 on two sessions: after an accepted change of the second
    fixture the first still excludes its selection, and after an accepted
    change of the first fixture followed by a load it does so again. *)
Lemma recommendations_bounded_and_exclusive_witness :
  let load :=
    Results.Load "p-1" (ok Sample.project) (ok Sample.rows) (ok Sample.catalog) in
  let f :=
    Fixture.mk "f-1" "p-1" "Lobby" "LIGHT_01" (Some "m-1") 2 32000
      "2024-01-02" (Some Sample.panel40) (Some [Sample.panel36]) (Some false) in
  (In f (Results.fixtures
           (ui (Results.run Results.mounted
                  [load; Results.ApplySelection "f-2" "m-9" (ok tt)]))) /\
   Spec.atMostThree f = true /\ Spec.excludesSelection f = true) /\
  (In f (Results.fixtures
           (ui (Results.run Results.mounted
                  [load; Results.ApplySelection "f-1" "m-2" (ok tt); load]))) /\
   Spec.atMostThree f = true /\ Spec.excludesSelection f = true).
Proof.
  intros load f. split.
  - assert (Hin : In f (Results.fixtures
                          (ui (Results.run Results.mounted
                                 [load; Results.ApplySelection "f-2" "m-9" (ok tt)]))))
      by (left; reflexivity).
    split; [exact Hin|].
    destruct (recommendations_bounded_and_exclusive _ f Hin) as [H3 Hex].
    split; [exact H3|]. apply Hex. simpl. intuition discriminate.
  - assert (Hin : In f (Results.fixtures
                          (ui (Results.run Results.mounted
                                 [load; Results.ApplySelection "f-1" "m-2" (ok tt);
                                  load]))))
      by (left; reflexivity).
    split; [exact Hin|].
    destruct (recommendations_bounded_and_exclusive _ f Hin) as [H3 Hex].
    split; [exact H3|]. apply Hex. simpl. tauto.
Defined.

(** ** C5 and C6: what an accepted selection change touches *)

Section AcceptedSelection.

Variables (fixtureId newModelId : string) (newModel : option FixtureModel).

Let update : ExtendedFixture -> ExtendedFixture :=
  Results.withSelection fixtureId newModelId newModel.

Lemma update_other (f : ExtendedFixture) :
  Fixture.id f <> fixtureId -> update f = f.
Proof.
  intro H. unfold update, Results.withSelection.
  apply String.eqb_neq in H. rewrite H. reflexivity.
Qed.

Lemma update_target (f : ExtendedFixture) :
  Fixture.id f = fixtureId ->
  update f = Fixture.with_selection f newModelId newModel.
Proof.
  intro H. unfold update, Results.withSelection.
  apply String.eqb_eq in H. rewrite H. reflexivity.
Qed.

Lemma update_absent (l : list ExtendedFixture) :
  ~ In fixtureId (map Fixture.id l) -> map update l = l.
Proof.
  induction l as [|f l IH]; simpl; intro H; [reflexivity|].
  rewrite update_other, IH; tauto.
Qed.

(** With unique ids, every position but the target's holds another id. *)
Lemma other_position_other_id (l : list ExtendedFixture) (i j : nat)
    (f g : ExtendedFixture) :
  NoDup (map Fixture.id l) ->
  nth_error l i = Some f -> nth_error l j = Some g ->
  Fixture.id f = fixtureId -> j <> i -> Fixture.id g <> fixtureId.
Proof.
  intros Hnd Hi Hj Hf Hne Hg. apply Hne.
  apply (proj1 (NoDup_nth_error (map Fixture.id l)) Hnd).
  - rewrite length_map. apply nth_error_Some. rewrite Hj. discriminate.
  - rewrite !nth_error_map, Hi, Hj. simpl. congruence.
Qed.

Lemma sum_update_one (l : list ExtendedFixture) (target : ExtendedFixture) :
  NoDup (map Fixture.id l) -> In target l -> Fixture.id target = fixtureId ->
  Spec.total (map update l)
  = Spec.total l
    + (Spec.unitPriceOrZero (update target) - Spec.unitPriceOrZero target)
      * Fixture.quantity target.
Proof.
  intros Hnd Hin Hid. induction l as [|f l IH]; [contradiction|].
  simpl in Hnd. inversion Hnd as [|x xs Hnotin Hnd']; subst x xs.
  destruct Hin as [Heq|Hin].
  - subst f. simpl. rewrite update_absent by (rewrite <- Hid; exact Hnotin).
    rewrite (update_target target Hid). simpl. lia.
  - assert (Hf : Fixture.id f <> fixtureId).
    { intro Hf. apply Hnotin. rewrite Hf, <- Hid. apply in_map, Hin. }
    simpl. rewrite (update_other f Hf), (IH Hnd' Hin). lia.
Qed.

End AcceptedSelection.

Lemma inCatalog_find (newModelId : string) (catalog : list FixtureModel) :
  Spec.inCatalog newModelId catalog = true ->
  exists newModel,
    find (fun m => String.eqb (FixtureModel.id m) newModelId) catalog
    = Some newModel
    /\ In newModel catalog /\ FixtureModel.id newModel = newModelId.
Proof.
  unfold Spec.inCatalog. intro H.
  destruct (find (fun m => String.eqb (FixtureModel.id m) newModelId) catalog)
    as [m|] eqn:Hfind.
  - exists m. apply find_some in Hfind. destruct Hfind as [Hin Heq].
    apply String.eqb_eq in Heq. auto.
  - apply existsb_exists in H. destruct H as [m [Hin Heq]].
    rewrite (find_none _ _ Hfind m Hin) in Heq. discriminate.
Qed.

(** C5. When [newModelId] names a model of the loaded catalog, fixture ids
    are unique and [fixtureId] is one of them, an accepted selection change
    rewrites one position of the fixture list: there the new fixture has
    [selected_model_id = newModelId] and the catalog model of that id as
    [selected_model], and every other field (recommendations, visibility
    flag, quantity, room, symbol, lux and the rest) as before; every other
    position holds the fixture it held; the length of the list, the
    project, the catalog and the loading flag are unchanged. *)
Theorem accepted_selection_updates_one_fixture :
  forall (w : World Results.State) (fixtureId newModelId : string)
         (d : option unit),
    Spec.inCatalog newModelId (Results.allModels (ui w)) = true ->
    NoDup (map Fixture.id (Results.fixtures (ui w))) ->
    In fixtureId (map Fixture.id (Results.fixtures (ui w))) ->
    let w' :=
      Results.step w
        (Results.ApplySelection fixtureId newModelId (mkResponse d None)) in
    exists i target target' newModel,
      nth_error (Results.fixtures (ui w)) i = Some target /\
      Fixture.id target = fixtureId /\
      nth_error (Results.fixtures (ui w')) i = Some target' /\
      In newModel (Results.allModels (ui w)) /\
      FixtureModel.id newModel = newModelId /\
      Fixture.selected_model_id target' = Some newModelId /\
      Fixture.selected_model target' = Some newModel /\
      Spec.sameButSelection target target' /\
      (forall j, j <> i ->
                 nth_error (Results.fixtures (ui w')) j
                 = nth_error (Results.fixtures (ui w)) j) /\
      List.length (Results.fixtures (ui w'))
      = List.length (Results.fixtures (ui w)) /\
      Results.project (ui w') = Results.project (ui w) /\
      Results.allModels (ui w') = Results.allModels (ui w) /\
      Results.loading (ui w') = Results.loading (ui w).
Proof.
  intros w fixtureId newModelId d Hcat Hnd Hin w'.
  destruct (inCatalog_find _ _ Hcat) as [newModel [Hfind [HinM HidM]]].
  apply in_map_iff in Hin. destruct Hin as [target [Hid Hin]].
  apply In_nth_error in Hin. destruct Hin as [i Hi].
  subst w'. unfold Results.step, Results.handle, exec.
  rewrite handleModelChange_accepted. cbn [snd ui Results.fixtures
    Results.project Results.allModels Results.loading]. rewrite Hfind.
  exists i, target, (Fixture.with_selection target newModelId (Some newModel)),
    newModel.
  repeat match goal with |- _ /\ _ => split end;
    try reflexivity; try assumption.
  - rewrite nth_error_map, Hi. simpl.
    rewrite (update_target _ _ _ _ Hid). reflexivity.
  - repeat split.
  - intros j Hj. rewrite nth_error_map.
    destruct (nth_error (Results.fixtures (ui w)) j) as [g|] eqn:Hg;
      [|reflexivity].
    simpl. rewrite update_other; [reflexivity|].
    exact (other_position_other_id fixtureId _ i j target g Hnd Hi Hg Hid Hj).
  - apply length_map.
Qed.

(** C5 on the loaded sample page: the first fixture takes the second
    panel. *)
Lemma accepted_selection_updates_one_fixture_witness :
  exists i target target' newModel,
    nth_error (Results.fixtures (ui Sample.loaded)) i = Some target /\
    Fixture.id target = "f-1" /\
    nth_error
      (Results.fixtures
         (ui (Results.step Sample.loaded
                (Results.ApplySelection "f-1" "m-2" (mkResponse (Some tt) None)))))
      i = Some target' /\
    In newModel (Results.allModels (ui Sample.loaded)) /\
    FixtureModel.id newModel = "m-2" /\
    Fixture.selected_model_id target' = Some "m-2" /\
    Fixture.selected_model target' = Some newModel /\
    Spec.sameButSelection target target'.
Proof.
  destruct
    (accepted_selection_updates_one_fixture Sample.loaded "f-1" "m-2" (Some tt))
    as [i [target [target' [newModel H]]]].
  - reflexivity.
  - repeat constructor; simpl; intuition discriminate.
  - left. reflexivity.
  - exists i, target, target', newModel. tauto.
Defined.

(** C6, as stated, fails: on a page with three panels at 45.99, an
    accepted selection of the panel at 42.50 moves the computed total from
    137.97 to 127.5, a change of -10.469999999999999, while
    [(42.5 - 45.99) * 3] is -10.470000000000006. *)
Lemma cost_delta_is_rounded :
  ~ (forall (w : World Results.State) (fixtureId newModelId : string)
            (d : option unit) (target : ExtendedFixture)
            (oldModel newModel : FixtureModel),
        Spec.costInvariant (ui w) ->
        NoDup (map Fixture.id (Results.fixtures (ui w))) ->
        In target (Results.fixtures (ui w)) ->
        Fixture.id target = fixtureId ->
        Fixture.selected_model target = Some oldModel ->
        find (fun m => String.eqb (FixtureModel.id m) newModelId)
          (Results.allModels (ui w)) = Some newModel ->
        let w' :=
          Results.step w
            (Results.ApplySelection fixtureId newModelId (mkResponse d None)) in
        Double.eqb
          (Double.sub (Double.total (Results.fixtures (ui w')))
             (Double.total (Results.fixtures (ui w))))
          (Double.mul
             (Double.sub
                (Double.ofHundredths (FixtureModel.unit_price newModel))
                (Double.ofHundredths (FixtureModel.unit_price oldModel)))
             (Double.ofZ (Fixture.quantity target)))
        = true).
Proof.
  intro claim.
  assert (H :=
    claim Rounding.threePanels "f-1" "m-2" (Some tt)
      (Fixture.with_recommendations (Sample.row "f-1" 3 (Some Sample.panel40))
         [Sample.panel36] false)
      Sample.panel40 Sample.panel36 eq_refl).
  cbv zeta in H.
  assert (Hnd : NoDup (map Fixture.id (Results.fixtures (ui Rounding.threePanels))))
    by (repeat constructor; simpl; tauto).
  specialize (H Hnd (or_introl eq_refl) eq_refl eq_refl eq_refl).
  vm_compute in H. discriminate H.
Qed.

(** C6, amended. With unique fixture ids, an accepted selection of a
    catalog model for the fixture at position [i] changes one term of the
    sum that [calculateTotalCost] recomputes from left to right: the
    contribution at [i] goes from the old unit price times the quantity to
    the new unit price times the same quantity, and the contribution at
    every other position is the one it was. In exact hundredths the sums
    over the two lists differ by [(newPrice - oldPrice) * quantity]; the
    doubles computed need not. *)
Theorem accepted_selection_changes_one_contribution :
  forall (w : World Results.State) (fixtureId newModelId : string)
         (d : option unit) (i : nat) (target : ExtendedFixture)
         (oldModel newModel : FixtureModel),
    NoDup (map Fixture.id (Results.fixtures (ui w))) ->
    nth_error (Results.fixtures (ui w)) i = Some target ->
    Fixture.id target = fixtureId ->
    Fixture.selected_model target = Some oldModel ->
    find (fun m => String.eqb (FixtureModel.id m) newModelId)
      (Results.allModels (ui w)) = Some newModel ->
    let before := Results.fixtures (ui w) in
    let after :=
      Results.fixtures
        (ui (Results.step w
               (Results.ApplySelection fixtureId newModelId
                  (mkResponse d None)))) in
    Double.total after
    = fold_left Double.add (map Double.contribution after) Double.zero /\
    nth_error (map Double.contribution before) i
    = Some (Double.mul
              (Double.or_zero
                 (Double.ofHundredths (FixtureModel.unit_price oldModel)))
              (Double.ofZ (Fixture.quantity target))) /\
    nth_error (map Double.contribution after) i
    = Some (Double.mul
              (Double.or_zero
                 (Double.ofHundredths (FixtureModel.unit_price newModel)))
              (Double.ofZ (Fixture.quantity target))) /\
    (forall j, j <> i ->
               nth_error (map Double.contribution after) j
               = nth_error (map Double.contribution before) j) /\
    Spec.total after - Spec.total before
    = (FixtureModel.unit_price newModel - FixtureModel.unit_price oldModel)
      * Fixture.quantity target.
Proof.
  intros w fixtureId newModelId d i target oldModel newModel
    Hnd Hi Hid Hold Hfind before after. subst before after.
  unfold Results.step, Results.handle, exec.
  rewrite handleModelChange_accepted. cbv zeta.
  cbn [snd ui Results.fixtures]. rewrite Hfind.
  split; [apply double_total_contributions|].
  split.
  { rewrite nth_error_map, Hi. cbn [option_map].
    unfold Double.contribution, Double.price. rewrite Hold. reflexivity. }
  split.
  { rewrite !nth_error_map, Hi. cbn [option_map].
    rewrite (update_target _ _ _ _ Hid). reflexivity. }
  split.
  { intros j Hj. rewrite !nth_error_map.
    destruct (nth_error (Results.fixtures (ui w)) j) as [g|] eqn:Hg;
      [|reflexivity].
    cbn [option_map]. rewrite update_other; [reflexivity|].
    exact (other_position_other_id fixtureId _ i j target g Hnd Hi Hg Hid Hj). }
  rewrite (sum_update_one fixtureId newModelId (Some newModel) _ target Hnd
             (nth_error_In _ _ Hi) Hid).
  rewrite (update_target _ _ _ _ Hid).
  unfold Spec.unitPriceOrZero at 1 2. rewrite Hold. simpl. lia.
Qed.

(** The amended C6 on the page with three panels at 45.99, which take the
    panel at 42.50: the one contribution becomes the double 127.5. *)
Lemma accepted_selection_changes_one_contribution_witness :
  nth_error
    (map Double.contribution
       (Results.fixtures
          (ui (Results.step Rounding.threePanels
                 (Results.ApplySelection "f-1" "m-2"
                    (mkResponse (Some tt) None))))))
    0
  = Some (S754_finite false 8972014882652160 (-46)).
Proof.
  destruct
    (accepted_selection_changes_one_contribution Rounding.threePanels "f-1"
       "m-2" (Some tt) 0
       (Fixture.with_recommendations (Sample.row "f-1" 3 (Some Sample.panel40))
          [Sample.panel36] false)
       Sample.panel40 Sample.panel36)
    as [_ [_ [Hafter _]]].
  - repeat constructor; simpl; tauto.
  - reflexivity.
  - reflexivity.
  - reflexivity.
  - reflexivity.
  - rewrite Hafter. vm_compute. reflexivity.
Defined.

(** ** C7: toggling the recommendations of a fixture *)

Lemma withToggle_twice (fixtureId : string) (f : ExtendedFixture) :
  Spec.visibilitySet f = true ->
  Results.withToggle fixtureId (Results.withToggle fixtureId f) = f.
Proof.
  unfold Spec.visibilitySet, Results.withToggle. intro Hset.
  destruct (String.eqb (Fixture.id f) fixtureId) eqn:Hid.
  - cbn [Fixture.id Fixture.with_show]. rewrite Hid.
    destruct f as [i p r s m q l c sm recs [[|]|]]; cbn in *;
      [reflexivity | reflexivity | discriminate].
  - rewrite Hid. reflexivity.
Qed.

Lemma map_withToggle_twice (fixtureId : string) (l : list ExtendedFixture) :
  Forall (fun f => Spec.visibilitySet f = true) l ->
  map (Results.withToggle fixtureId) (map (Results.withToggle fixtureId) l) = l.
Proof.
  induction 1 as [|f l Hf _ IH]; simpl; [reflexivity|].
  rewrite withToggle_twice, IH; [reflexivity | exact Hf].
Qed.

Lemma withToggle_local (fixtureId : string) (f : ExtendedFixture) :
  Spec.visibilitySet f = true ->
  Spec.sameButVisibility f (Results.withToggle fixtureId f) /\
  Fixture.showRecommendations (Results.withToggle fixtureId f)
  = if String.eqb (Fixture.id f) fixtureId
    then option_map negb (Fixture.showRecommendations f)
    else Fixture.showRecommendations f.
Proof.
  unfold Spec.visibilitySet, Results.withToggle. intro Hset.
  destruct (String.eqb (Fixture.id f) fixtureId).
  - split; [repeat split|].
    destruct (Fixture.showRecommendations f) as [[|]|];
      [reflexivity | reflexivity | discriminate].
  - split; [repeat split | reflexivity].
Qed.

(** C7. In every state a session reaches, one call of
    [toggleRecommendations] sends nothing to the store, logs nothing, and
    keeps the project, the catalog, the total, the loading flag and the
    length of the fixture list; at every position the fixture keeps all its
    fields but the visibility flag, which is negated when the fixture's id
    is the given one and kept otherwise. A second call with the same id
    gives back the world the first call started from. *)
Theorem toggle_is_local_involution :
  forall (events : list Results.Event) (fixtureId : string),
    let w := Results.run Results.mounted events in
    let w1 := Results.step w (Results.ToggleRecommendations fixtureId) in
    Results.step w1 (Results.ToggleRecommendations fixtureId) = w /\
    calls w1 = calls w /\
    console w1 = console w /\
    Results.project (ui w1) = Results.project (ui w) /\
    Results.allModels (ui w1) = Results.allModels (ui w) /\
    Results.totalCost (ui w1) = Results.totalCost (ui w) /\
    Results.loading (ui w1) = Results.loading (ui w) /\
    List.length (Results.fixtures (ui w1))
    = List.length (Results.fixtures (ui w)) /\
    (forall i f,
        nth_error (Results.fixtures (ui w)) i = Some f ->
        exists g,
          nth_error (Results.fixtures (ui w1)) i = Some g /\
          Spec.sameButVisibility f g /\
          Fixture.showRecommendations g
          = if String.eqb (Fixture.id f) fixtureId
            then option_map negb (Fixture.showRecommendations f)
            else Fixture.showRecommendations f).
Proof.
  intros events fixtureId w w1.
  pose proof (reachable_visibilitySet events) as Hset. fold w in Hset.
  subst w1. clearbody w.
  unfold Results.step, Results.handle, exec.
  rewrite !toggleRecommendations_world.
  destruct w as [[p fs ms t l] c k].
  cbn [snd ui console calls Results.project Results.fixtures
       Results.allModels Results.totalCost Results.loading] in *.
  repeat match goal with |- _ /\ _ => split end; try reflexivity.
  - rewrite (map_withToggle_twice fixtureId fs Hset). reflexivity.
  - apply length_map.
  - intros i f Hi. exists (Results.withToggle fixtureId f). split.
    + rewrite nth_error_map, Hi. reflexivity.
    + apply withToggle_local.
      apply (proj1 (Forall_forall _ _) Hset f).
      apply (nth_error_In _ _ Hi).
Qed.

(** ** C9: a selection outside the loaded catalog *)




(** ** Number formatting *)

Lemma string_of_uint_digits (d : Decimal.uint) :
  Format.all_digits (NilEmpty.string_of_uint d) = true.
Proof. induction d; simpl; [reflexivity | assumption ..]. Qed.

Lemma decimal_digits (n : Z) : Format.all_digits (Format.decimal n) = true.
Proof. apply string_of_uint_digits. Qed.

Lemma decimal_nonempty (n : Z) : (1 <= String.length (Format.decimal n))%nat.
Proof.
  unfold Format.decimal. destruct (Z.to_N n) as [|p]; simpl; [lia|].
  pose proof (DecimalPos.Unsigned.to_uint_nonnil p) as H.
  destruct (Pos.to_uint p); simpl; try lia. congruence.
Qed.

Lemma length_append (s t : string) :
  String.length (s ++ t) = (String.length s + String.length t)%nat.
Proof. induction s as [|c s IH]; simpl; [reflexivity | rewrite IH; reflexivity]. Qed.

Lemma all_digits_append (s t : string) :
  Format.all_digits (s ++ t) = Format.all_digits s && Format.all_digits t.
Proof.
  induction s as [|c s IH]; simpl; [reflexivity|].
  rewrite IH, andb_assoc. reflexivity.
Qed.

Lemma zeros_digits (n : nat) : Format.all_digits (Format.zeros n) = true.
Proof. induction n; simpl; [reflexivity | assumption]. Qed.

Lemma length_zeros (n : nat) : String.length (Format.zeros n) = n.
Proof. induction n; simpl; [reflexivity | rewrite IHn; reflexivity]. Qed.

Lemma substring_digits (s : string) :
  Format.all_digits s = true ->
  forall n m, Format.all_digits (substring n m s) = true.
Proof.
  induction s as [|c s IH]; intros Hs n m.
  - destruct n, m; reflexivity.
  - simpl in Hs. apply andb_true_iff in Hs. destruct Hs as [Hc Hs].
    destruct n as [|n]; [destruct m as [|m]|]; simpl.
    + reflexivity.
    + rewrite Hc. apply (IH Hs 0%nat m).
    + apply (IH Hs n m).
Qed.

Lemma length_substring (s : string) :
  forall n m, (n + m <= String.length s)%nat ->
              String.length (substring n m s) = m.
Proof.
  induction s as [|c s IH]; intros n m H; simpl in H.
  - destruct n, m; simpl; lia.
  - destruct n as [|n]; [destruct m as [|m]|]; simpl.
    + reflexivity.
    + rewrite (IH 0%nat m); [reflexivity | lia].
    + apply IH. lia.
Qed.

(** Digits, a point and two digits are accepted once a digit has been
    read. *)
Lemma digits_point_2_accepts (a b : string) (seen : bool) :
  Format.all_digits a = true -> Format.all_digits b = true ->
  String.length b = 2%nat ->
  (seen = true \/ (1 <= String.length a)%nat) ->
  Format.digits_point_2 (a ++ "." ++ b) seen = true.
Proof.
  intros Ha Hb Hlen. revert seen.
  induction a as [|c a IH]; intros seen Hseen.
  - destruct Hseen as [Hseen|Hseen]; [|simpl in Hseen; lia].
    destruct b as [|x [|y [|z b]]]; try discriminate Hlen.
    simpl in Hb. subst seen. cbn. rewrite andb_true_r in Hb. exact Hb.
  - simpl in Ha. apply andb_true_iff in Ha. destruct Ha as [Hc Ha].
    cbn [append Format.digits_point_2]. rewrite Hc. apply IH; auto.
Qed.

(** Below 10^21 (in hundredths, below 10^23), a non-negative amount is
    printed by [toFixed(2)] in the form that the money pattern accepts. *)
Lemma toFixed2_money (c : Z) :
  0 <= c < 10 ^ 23 ->
  Format.money_format ("$" ++ Format.toFixed2 c) = true.
Proof.
  intros [H0 H1]. unfold Format.toFixed2.
  replace (c <? 0) with false by (symmetry; apply Z.ltb_ge; exact H0).
  rewrite (Z.abs_eq c H0).
  replace (10 ^ 23 <=? c) with false by (symmetry; apply Z.leb_gt; exact H1).
  pose proof (decimal_digits c) as Hd.
  pose proof (decimal_nonempty c) as Hn.
  set (m := Format.decimal c) in *.
  set (padded :=
         if (String.length m <=? 2)%nat
         then Format.zeros (2 + 1 - String.length m) ++ m else m).
  assert (Hpd : Format.all_digits padded = true).
  { unfold padded. destruct (String.length m <=? 2)%nat; [|exact Hd].
    rewrite all_digits_append, zeros_digits, Hd. reflexivity. }
  assert (Hpl : (3 <= String.length padded)%nat).
  { unfold padded. destruct (Nat.leb_spec (String.length m) 2).
    - rewrite length_append, length_zeros. lia.
    - lia. }
  cbn [append Format.money_format Ascii.eqb Bool.eqb andb].
  apply digits_point_2_accepts.
  - apply substring_digits, Hpd.
  - apply substring_digits, Hpd.
  - apply length_substring. lia.
  - right. rewrite length_substring; lia.
Qed.

(** The formatting functions on the values the page shows. *)
Example toFixed2_samples :
  map Format.toFixed2 [0; 5; 42; 100; 10497; -1234; 10 ^ 23]
  = ["0.00"; "0.05"; "0.42"; "1.00"; "104.97"; "-12.34"; "1e+21"].
Proof. reflexivity. Qed.

Example toString_samples :
  map Format.toString [0; 5; -42; 1704153600000; 10 ^ 21]
  = ["0"; "5"; "-42"; "1704153600000"; "1e+21"].
Proof. reflexivity. Qed.

Example money_format_samples :
  map Format.money_format
    ["$0.00"; "$104.97"; "$1.5"; "$.50"; "$12.345"; "104.97"; "$1e+21"]
  = [true; true; false; false; false; false; false].
Proof. reflexivity. Qed.

(** Outside the ranges of the schema a money cell need not match: a
    negative amount carries a sign. *)
Example negative_amount_cell :
  Format.money_format ("$" ++ Format.toFixed2 (-500)) = false.
Proof. reflexivity. Qed.

(** ** C8: the exported table *)

Lemma unit_price_cell_money (o : option FixtureModel) :
  match o with
  | Some m => 0 <= FixtureModel.unit_price m < 10 ^ 23
  | None => True
  end ->
  Format.money_format
    ("$" ++ JS.chain_str o (fun m => Format.toFixed2 (FixtureModel.unit_price m))
              "0.00") = true.
Proof.
  destruct o as [m|]; intro H; [|reflexivity].
  unfold JS.chain_str, JS.or_str.
  destruct (String.eqb (Format.toFixed2 (FixtureModel.unit_price m)) "");
    [reflexivity | apply toFixed2_money, H].
Qed.

Lemma moneyCells_inRange (fixture : ExtendedFixture) :
  Spec.inRange fixture = true ->
  forallb Format.money_format (Exporter.moneyCells (Exporter.tableRow fixture))
  = true.
Proof.
  unfold Spec.inRange. intro H.
  apply andb_true_iff in H. destruct H as [H Hq1].
  apply andb_true_iff in H. destruct H as [Hp Hq0].
  apply Z.leb_le in Hq0, Hq1.
  unfold Exporter.moneyCells, Exporter.tableRow.
  cbn [skipn firstn forallb].
  rewrite unit_price_cell_money, toFixed2_money; [reflexivity| |].
  - rewrite chain_num_price. unfold Spec.unitPriceOrZero.
    destruct (Fixture.selected_model fixture) as [m|]; [|lia].
    apply andb_true_iff in Hp. destruct Hp as [Hp0 Hp1].
    apply Z.leb_le in Hp0, Hp1. nia.
  - destruct (Fixture.selected_model fixture) as [m|]; [|exact I].
    apply andb_true_iff in Hp. destruct Hp as [Hp0 Hp1].
    apply Z.leb_le in Hp0, Hp1. lia.
Qed.

(** The table of the loaded sample page. *)
Example export_sample_rows :
  Exporter.bodyRows
    (Exporter.exportToPDF (ui Sample.loaded) "1/2/2024" 1704153600000 (Some 80))
  = [["LIGHT_01"; "Lobby"; "LED-P600-40W"; "BrightLite"; "2"; "$45.99"; "$91.98"];
     ["LIGHT_01"; "Lobby"; "FL-T8-36W"; "StandardCorp"; "1"; "$12.99"; "$12.99"]].
Proof. reflexivity. Qed.

(** C8, as stated, fails: for a fixture without a resolved model the unit
    price and line total cells of its row are not the placeholder. *)
Lemma price_cells_are_not_placeholder :
  ~ (forall (s : Results.State) (today : string) (now : Z) (finalY : option Z)
            (i : nat) (fixture : ExtendedFixture) (row : list string),
        nth_error (Results.fixtures s) i = Some fixture ->
        nth_error (Exporter.bodyRows (Exporter.exportToPDF s today now finalY)) i
        = Some row ->
        Fixture.selected_model fixture = None ->
        forall cell, In cell (Spec.modelDerivedCells row) -> cell = "N/A").
Proof.
  intro claim.
  assert (H : "$0.00" = "N/A"); [|discriminate H].
  apply
    (claim
       (Results.mkState (Some Sample.project) [Sample.row "f-3" 3 None]
          Sample.catalog 0 false)
       "1/2/2024" 1704153600000 (Some 80) 0%nat (Sample.row "f-3" 3 None)
       ["LIGHT_01"; "Lobby"; "N/A"; "N/A"; "3"; "$0.00"; "$0.00"]
       eq_refl eq_refl eq_refl).
  simpl. tauto.
Qed.

(** C8, amended. For every state of the page the exported document has one
    body row per fixture, in order, and one line of text after the table,
    the total line, so rows and total line count one more than the
    fixtures. In the row of a fixture without a resolved model the model
    name and manufacturer cells are the placeholder [N/A] and the unit
    price and line total cells are [$0.00]. For a fixture within the ranges
    of the schema (unit price from 0 to 99999999.99, quantity from 0 to
    2^31 - 1) both money cells match [^\$\d+\.\d{2}$], and so does the
    amount of the total line when the total is not negative and below
    10^21. *)
Theorem export_rows_and_money_cells :
  forall (s : Results.State) (today : string) (now : Z) (finalY : option Z),
    let doc := Exporter.exportToPDF s today now finalY in
    List.length (Exporter.bodyRows doc) = List.length (Results.fixtures s) /\
    Exporter.textAfterTable doc
    = ["Total Project Cost: $" ++ Format.toFixed2 (Results.totalCost s)] /\
    (List.length (Exporter.bodyRows doc)
     + List.length (Exporter.textAfterTable doc)
     = List.length (Results.fixtures s) + 1)%nat /\
    (forall i fixture,
        nth_error (Results.fixtures s) i = Some fixture ->
        exists row,
          nth_error (Exporter.bodyRows doc) i = Some row /\
          List.length row = 7%nat /\
          (Fixture.selected_model fixture = None ->
           Exporter.modelCells row = ["N/A"; "N/A"] /\
           Exporter.moneyCells row = ["$0.00"; "$0.00"]) /\
          (Spec.inRange fixture = true ->
           forallb Format.money_format (Exporter.moneyCells row) = true)) /\
    (0 <= Results.totalCost s < 10 ^ 23 ->
     Format.money_format ("$" ++ Format.toFixed2 (Results.totalCost s)) = true).
Proof.
  intros s today now finalY doc.
  assert (Hbody : Exporter.bodyRows doc
                  = map Exporter.tableRow (Results.fixtures s)).
  { subst doc. unfold Exporter.exportToPDF. cbn [Exporter.bodyRows].
    apply app_nil_r. }
  assert (Htext : Exporter.textAfterTable doc
                  = ["Total Project Cost: $"
                     ++ Format.toFixed2 (Results.totalCost s)])
    by reflexivity.
  rewrite Hbody, Htext. rewrite length_map.
  split; [reflexivity|]. split; [reflexivity|]. split; [reflexivity|].
  split; [|apply toFixed2_money].
  intros i fixture Hi. exists (Exporter.tableRow fixture).
  split; [rewrite nth_error_map, Hi; reflexivity|].
  split; [reflexivity|]. split.
  - intro Hnone. unfold Exporter.modelCells, Exporter.moneyCells,
      Exporter.tableRow. rewrite Hnone. split; reflexivity.
  - apply moneyCells_inRange.
Qed.

(** ** C10: the rows an upload inserts *)

Lemma randomBelow_range (random : nat -> Q) (n : nat) (k : Z) :
  (0 <= random n)%Q -> (random n < 1)%Q -> 0 < k ->
  0 <= Upload.randomBelow random n k < k.
Proof.
  intros H0 H1 Hk. unfold Upload.randomBelow.
  assert (Hk' : (inject_Z 0 < inject_Z k)%Q) by (rewrite <- Zlt_Qlt; exact Hk).
  split.
  - change 0 with (Qfloor 0). apply Qfloor_resp_le.
    apply Qmult_le_0_compat; [exact H0 | apply Qlt_le_weak, Hk'].
  - rewrite Zlt_Qlt.
    apply Qle_lt_trans with (y := (random n * inject_Z k)%Q);
      [apply Qfloor_le|].
    setoid_replace (inject_Z k) with (1 * inject_Z k)%Q at 2 by ring.
    apply Qmult_lt_compat_r; assumption.
Qed.

Lemma pushRows_length (random : nat -> Q) (projectId : string)
    (models : list FixtureModel) (count : nat) :
  forall from fixturesData rows,
    Upload.pushRows random projectId models from count fixturesData
    = Normal rows ->
    List.length rows = (List.length fixturesData + count)%nat.
Proof.
  induction count as [|count IH]; intros from fixturesData rows H; simpl in H.
  - injection H as <-. lia.
  - destruct (Upload.fixtureRow random projectId models from) as [row|e];
      [|discriminate H].
    apply IH in H. rewrite H, length_app. simpl. lia.
Qed.

(** Runs the handler as far as the next answer or test that is not known
    yet, in the goal and in [H]. *)
Ltac upload_step H :=
  unfold try_finally, try_catch, bind, ret, throw_if, throw, await, modify,
    get, console_error, Upload.lift, Upload.simulateProcessing,
    Upload.setError, Upload.setSuccess, Upload.setUploading,
    Upload.setUploadProgress, Upload.onNavigate in H |- *;
  cbn -[Upload.randomBelow Upload.pushRows Upload.blank Z.min Z.to_nat Z.mul
        Z.add] in H |- *.

(** C10. When the random numbers lie in [0, 1) and [handleSubmit] ends
    with the success flag set, the handler has sent three requests: the
    insert of the project, whose [total_fixtures] is the drawn value
    [floor(random * 50) + 10], between 10 and 59; the select of five
    models; and one insert of fixture rows, of which there are
    [min(total_fixtures, 15)]. So when [total_fixtures] exceeds 15 the
    number of rows inserted is smaller than the stored count. *)
Theorem upload_inserts_capped_rows :
  forall (random : nat -> Q) (w : World Upload.State)
         (insertAnswer : Response Project)
         (modelsAnswer : Response (list FixtureModel))
         (fixturesAnswer : Response unit),
    (forall n, (0 <= random n)%Q /\ (random n < 1)%Q) ->
    let w' :=
      exec (Upload.handleSubmit random insertAnswer modelsAnswer fixturesAnswer)
        w in
    Upload.success (ui w') = true ->
    exists row rows,
      calls w'
      = InsertFixtures rows :: SelectModelsLimit 5 :: InsertProject row
        :: calls w /\
      pi_total_fixtures row = Upload.randomBelow random 0 50 + 10 /\
      10 <= pi_total_fixtures row <= 59 /\
      Z.of_nat (List.length rows) = Z.min (pi_total_fixtures row) 15 /\
      (15 < pi_total_fixtures row ->
       Z.of_nat (List.length rows) < pi_total_fixtures row).
Proof.
  intros random w a1 a2 a3 Hrandom w' Hsuccess.
  pose proof (randomBelow_range random 0 50 (proj1 (Hrandom 0%nat))
                (proj2 (Hrandom 0%nat)) eq_refl) as Hdraw.
  subst w'. destruct w as [[file projectName u up err su nav] c k].
  unfold exec, Upload.handleSubmit in *.
  destruct file as [file|]; [|discriminate Hsuccess].
  upload_step Hsuccess.
  destruct (Upload.blank projectName); [discriminate Hsuccess|].
  destruct a1 as [d1 [e1|]]; upload_step Hsuccess; [discriminate Hsuccess|].
  destruct a2 as [d2 [e2|]]; upload_step Hsuccess; [discriminate Hsuccess|].
  destruct d1 as [projectData|]; upload_step Hsuccess; [|discriminate Hsuccess].
  destruct d2 as [models|]; upload_step Hsuccess; [|discriminate Hsuccess].
  destruct (Upload.pushRows random (Project.id projectData) models 0
              (Z.to_nat (Z.min (Upload.randomBelow random 0 50 + 10) 15)) [])
    as [rows|e] eqn:Hrows; upload_step Hsuccess; [|discriminate Hsuccess].
  destruct a3 as [d3 [e3|]]; upload_step Hsuccess; [discriminate Hsuccess|].
  apply pushRows_length in Hrows. simpl in Hrows.
  eexists. exists rows. split; [reflexivity|].
  cbn [pi_total_fixtures]. rewrite Hrows.
  repeat split; lia.
Qed.

(** C10 when every random number is one half: 35 fixtures are stored on
    the project and 15 rows are inserted. *)
Lemma upload_inserts_capped_rows_witness :
  exists row rows,
    calls
      (exec (Upload.handleSubmit (fun _ => 1 # 2) (ok Sample.project)
               (ok Sample.catalog) (ok tt))
         Sample.upload)
    = [InsertFixtures rows; SelectModelsLimit 5; InsertProject row] /\
    pi_total_fixtures row = 35 /\
    List.length rows = 15%nat.
Proof.
  destruct
    (upload_inserts_capped_rows (fun _ => 1 # 2) Sample.upload
       (ok Sample.project) (ok Sample.catalog) (ok tt))
    as [row [rows [Hcalls [Htotal [_ [Hmin _]]]]]].
  - intro n. split; [discriminate | reflexivity].
  - reflexivity.
  - exists row, rows. split; [exact Hcalls|].
    assert (H35 : pi_total_fixtures row = 35) by (rewrite Htotal; reflexivity).
    split; [exact H35|]. rewrite H35 in Hmin. simpl in Hmin. lia.
Defined.

(** * Further properties of the results page *)

(** ** Loading *)

(** X1. A load stops at the first request the store rejects: the error is
    logged once, the spinner is taken down, and the fixtures, the catalog
    and the total shown are the ones held before. A failed project request
    changes nothing else; after it, the project is already replaced. *)
Theorem failed_load_keeps_fixtures :
  forall (w : World Results.State) (projectId e : string)
         (p d1 : option Project) (d2 : option (list ExtendedFixture))
         (d3 : option (list FixtureModel))
         (a2 : Response (list ExtendedFixture))
         (a3 : Response (list FixtureModel)),
    let s := ui w in
    let logged := ("Error loading project data:", e) :: console w in
    Results.step w (Results.Load projectId (mkResponse d1 (Some e)) a2 a3)
    = mkWorld
        (Results.mkState (Results.project s) (Results.fixtures s)
           (Results.allModels s) (Results.totalCost s) false)
        logged (SelectProject projectId :: calls w) /\
    Results.step w
      (Results.Load projectId (mkResponse p None) (mkResponse d2 (Some e)) a3)
    = mkWorld
        (Results.mkState p (Results.fixtures s) (Results.allModels s)
           (Results.totalCost s) false)
        logged
        (SelectFixtures projectId :: SelectProject projectId :: calls w) /\
    Results.step w
      (Results.Load projectId (mkResponse p None) (mkResponse d2 None)
         (mkResponse d3 (Some e)))
    = mkWorld
        (Results.mkState p (Results.fixtures s) (Results.allModels s)
           (Results.totalCost s) false)
        logged
        (SelectModels :: SelectFixtures projectId :: SelectProject projectId
         :: calls w).
Proof. intros. repeat split. Qed.

Lemma alternativeTo_meaning (row : ExtendedFixture) (m : FixtureModel) :
  Checks.alternativeTo row m = true ->
  (exists selected,
      Fixture.selected_model row = Some selected /\
      FixtureModel.fixture_type m = FixtureModel.fixture_type selected) /\
  Fixture.selected_model_id row <> Some (FixtureModel.id m).
Proof.
  unfold Checks.alternativeTo. intro H.
  apply andb_true_iff in H. destruct H as [Ht Hid]. split.
  - destruct (Fixture.selected_model row) as [selected|]; [|discriminate Ht].
    exists selected. split; [reflexivity|]. apply String.eqb_eq, Ht.
  - intro Heq. rewrite Heq in Hid. simpl in Hid.
    rewrite String.eqb_refl in Hid. discriminate Hid.
Qed.

Lemma recommendationList_withRecommendations
    (ms : option (list FixtureModel)) (row : ExtendedFixture) :
  Spec.recommendationList (Results.withRecommendations ms row)
  = firstn 3 (filter (Checks.alternativeTo row) (JS.or_undef ms [])).
Proof. reflexivity. Qed.

(** X2. After a load whose three requests succeed the page holds one
    fixture per row the store returned, in the same order, each with the
    stored fields of its row and with its alternatives hidden. Every
    recommended model is in the loaded catalog, has the fixture type of the
    row's selected model and another id than the row's selected one; a row
    without a resolved model gets no recommendation. *)
Theorem loaded_fixtures_follow_rows :
  forall (w : World Results.State) (projectId : string) (p : option Project)
         (rows : list ExtendedFixture) (catalog : list FixtureModel),
    let w' :=
      Results.step w
        (Results.Load projectId (mkResponse p None) (ok rows) (ok catalog)) in
    List.length (Results.fixtures (ui w')) = List.length rows /\
    Results.allModels (ui w') = catalog /\
    Results.project (ui w') = p /\
    forall i row,
      nth_error rows i = Some row ->
      exists f,
        nth_error (Results.fixtures (ui w')) i = Some f /\
        Checks.sameRow row f /\
        Fixture.showRecommendations f = Some false /\
        (forall m,
            In m (Spec.recommendationList f) ->
            In m catalog /\
            (exists selected,
                Fixture.selected_model row = Some selected /\
                FixtureModel.fixture_type m
                = FixtureModel.fixture_type selected) /\
            Fixture.selected_model_id row <> Some (FixtureModel.id m)) /\
        (Fixture.selected_model row = None -> Spec.recommendationList f = []).
Proof.
  intros w projectId p rows catalog w'. subst w'.
  unfold Results.step, Results.handle, exec, ok.
  rewrite loadProjectData_loaded.
  cbn [snd ui Results.fixtures Results.allModels Results.project JS.or_undef].
  split; [apply length_map|]. split; [reflexivity|]. split; [reflexivity|].
  intros i row Hi. exists (Results.withRecommendations (Some catalog) row).
  split; [rewrite nth_error_map, Hi; reflexivity|].
  split; [repeat split|]. split; [reflexivity|].
  rewrite recommendationList_withRecommendations. cbn [JS.or_undef]. split.
  - intros m Hm. apply in_firstn, filter_In in Hm. destruct Hm as [Hin Halt].
    split; [exact Hin|]. apply alternativeTo_meaning, Halt.
  - intro Hnone.
    replace (filter (Checks.alternativeTo row) catalog) with (@nil FixtureModel);
      [reflexivity|].
    symmetry. clear Hi. induction catalog as [|m catalog IH]; [reflexivity|].
    simpl. unfold Checks.alternativeTo at 1. rewrite Hnone. simpl. exact IH.
Qed.

(** X3. When the loaded catalog holds at most three models of the type of
    a row's selected model under another id, the load recommends every one
    of them for that row. *)
Theorem few_alternatives_all_recommended :
  forall (w : World Results.State) (projectId : string) (p : option Project)
         (rows : list ExtendedFixture) (catalog : list FixtureModel)
         (i : nat) (row : ExtendedFixture) (m : FixtureModel),
    nth_error rows i = Some row ->
    (List.length (filter (Checks.alternativeTo row) catalog) <= 3)%nat ->
    In m catalog ->
    Checks.alternativeTo row m = true ->
    exists f,
      nth_error
        (Results.fixtures
           (ui (Results.step w
                  (Results.Load projectId (mkResponse p None) (ok rows)
                     (ok catalog)))))
        i = Some f /\
      In m (Spec.recommendationList f).
Proof.
  intros w projectId p rows catalog i row m Hi Hfew Hin Halt.
  unfold Results.step, Results.handle, exec, ok.
  rewrite loadProjectData_loaded.
  cbn [snd ui Results.fixtures JS.or_undef].
  exists (Results.withRecommendations (Some catalog) row).
  split; [rewrite nth_error_map, Hi; reflexivity|].
  rewrite recommendationList_withRecommendations. cbn [JS.or_undef].
  rewrite firstn_all2 by exact Hfew.
  apply filter_In. split; assumption.
Qed.

(** X3 on the sample catalog: the second panel is recommended for the
    fixture that selects the first. *)
Lemma few_alternatives_all_recommended_witness :
  exists f,
    nth_error (Results.fixtures (ui Sample.loaded)) 0 = Some f /\
    In Sample.panel36 (Spec.recommendationList f).
Proof.
  apply (few_alternatives_all_recommended Results.mounted "p-1"
           (Some Sample.project) Sample.rows Sample.catalog 0
           (Sample.row "f-1" 2 (Some Sample.panel40)) Sample.panel36).
  - reflexivity.
  - simpl. lia.
  - right. left. reflexivity.
  - reflexivity.
Defined.

Lemma step_loading (w : World Results.State) (e : Results.Event) :
  Results.loading (ui (Results.step w e))
  = Results.loading (ui w) && negb (Checks.isLoad e).
Proof.
  destruct e as [pid a1 a2 a3|fid mid a|fid]; unfold Results.step, Results.handle,
    exec.
  - destruct a1 as [d1 [e1|]], a2 as [d2 [e2|]], a3 as [d3 [e3|]];
      simpl; rewrite andb_false_r; reflexivity.
  - destruct a as [d [e|]]; simpl; rewrite andb_true_r; reflexivity.
  - simpl. rewrite andb_true_r. reflexivity.
Qed.

Lemma step_before_load (w : World Results.State) (e : Results.Event) :
  Checks.isLoad e = false -> ui w = Results.initial ->
  ui (Results.step w e) = Results.initial.
Proof.
  intros He Hw. destruct e as [pid a1 a2 a3|fid mid a|fid];
    [discriminate He| |]; unfold Results.step, Results.handle, exec.
  - destruct a as [d [e|]].
    + rewrite handleModelChange_rejected. exact Hw.
    + rewrite handleModelChange_accepted. cbv zeta. rewrite Hw. reflexivity.
  - rewrite toggleRecommendations_world. cbv zeta. rewrite Hw. reflexivity.
Qed.

(** X4. In a session the spinner is up exactly as long as no load has run,
    whatever its outcome; and until then no click changes the page state,
    which stays the empty initial one. *)
Theorem loading_until_first_load :
  forall events : list Results.Event,
    let w := Results.run Results.mounted events in
    Results.loading (ui w) = negb (existsb Checks.isLoad events) /\
    (existsb Checks.isLoad events = false -> ui w = Results.initial).
Proof.
  intro events. cbv zeta.
  assert (Hgen : forall w,
    Results.loading (ui (Results.run w events))
    = Results.loading (ui w) && negb (existsb Checks.isLoad events) /\
    (existsb Checks.isLoad events = false -> ui w = Results.initial ->
     ui (Results.run w events) = Results.initial)).
  { induction events as [|e events IH]; intro w; simpl.
    - rewrite andb_true_r. auto.
    - destruct (IH (Results.step w e)) as [IH1 IH2]. split.
      + rewrite IH1, step_loading, negb_orb, andb_assoc. reflexivity.
      + intros Hno Hw. apply orb_false_iff in Hno. destruct Hno as [He Hno].
        apply IH2; [exact Hno|]. apply step_before_load; assumption. }
  destruct (Hgen Results.mounted) as [H1 H2]. split.
  - rewrite H1. reflexivity.
  - intro Hno. apply H2; [exact Hno | reflexivity].
Qed.

(** ** How selection changes and toggles compose *)

Lemma step_accepted_ui (w : World Results.State) (fixtureId newModelId : string)
    (d : option unit) :
  ui (Results.step w
        (Results.ApplySelection fixtureId newModelId (mkResponse d None)))
  = let s := ui w in
    let updated :=
      map (Results.withSelection fixtureId newModelId
             (find (fun m => String.eqb (FixtureModel.id m) newModelId)
                (Results.allModels s)))
        (Results.fixtures s) in
    Results.mkState (Results.project s) updated (Results.allModels s)
      (Results.total updated) (Results.loading s).
Proof. reflexivity. Qed.

Lemma step_toggle_ui (w : World Results.State) (fixtureId : string) :
  ui (Results.step w (Results.ToggleRecommendations fixtureId))
  = let s := ui w in
    Results.mkState (Results.project s)
      (map (Results.withToggle fixtureId) (Results.fixtures s))
      (Results.allModels s) (Results.totalCost s) (Results.loading s).
Proof. reflexivity. Qed.

Lemma withSelection_twice (fixtureId newModelId : string)
    (newModel : option FixtureModel) (f : ExtendedFixture) :
  Results.withSelection fixtureId newModelId newModel
    (Results.withSelection fixtureId newModelId newModel f)
  = Results.withSelection fixtureId newModelId newModel f.
Proof.
  unfold Results.withSelection.
  destruct (String.eqb (Fixture.id f) fixtureId) eqn:H.
  - cbn [Fixture.id Fixture.with_selection]. rewrite H. reflexivity.
  - rewrite H. reflexivity.
Qed.

Lemma withSelection_swap (f1 f2 m1 m2 : string) (n1 n2 : option FixtureModel)
    (f : ExtendedFixture) :
  f1 <> f2 ->
  Results.withSelection f1 m1 n1 (Results.withSelection f2 m2 n2 f)
  = Results.withSelection f2 m2 n2 (Results.withSelection f1 m1 n1 f).
Proof.
  intro Hne. unfold Results.withSelection.
  destruct (String.eqb (Fixture.id f) f1) eqn:H1,
           (String.eqb (Fixture.id f) f2) eqn:H2;
    cbn [Fixture.id Fixture.with_selection]; rewrite ?H1, ?H2;
    try reflexivity.
  apply String.eqb_eq in H1, H2. congruence.
Qed.

Lemma withToggle_withSelection (a fixtureId newModelId : string)
    (newModel : option FixtureModel) (f : ExtendedFixture) :
  Results.withToggle a (Results.withSelection fixtureId newModelId newModel f)
  = Results.withSelection fixtureId newModelId newModel (Results.withToggle a f).
Proof.
  unfold Results.withToggle, Results.withSelection.
  destruct (String.eqb (Fixture.id f) a) eqn:H1,
           (String.eqb (Fixture.id f) fixtureId) eqn:H2;
    cbn [Fixture.id Fixture.with_selection Fixture.with_show];
    rewrite ?H1, ?H2; reflexivity.
Qed.

(** X5. An accepted selection change is idempotent on the page: making
    the same change again leaves every fixture and the total as the first
    one left them. *)
Theorem accepted_selection_idempotent :
  forall (w : World Results.State) (fixtureId newModelId : string)
         (d d' : option unit),
    let w1 :=
      Results.step w
        (Results.ApplySelection fixtureId newModelId (mkResponse d None)) in
    ui (Results.step w1
          (Results.ApplySelection fixtureId newModelId (mkResponse d' None)))
    = ui w1.
Proof.
  intros w fixtureId newModelId d d' w1. subst w1.
  rewrite !step_accepted_ui. cbv zeta.
  cbn [Results.fixtures Results.allModels Results.project Results.loading].
  rewrite map_map.
  rewrite (map_ext _ _ (withSelection_twice fixtureId newModelId _)).
  reflexivity.
Qed.

(** Two accepted selection changes of different fixtures, each answered
    before the next click, give the same page in either order. *)
Lemma sequential_selections_commute :
  forall (w : World Results.State) (f1 m1 f2 m2 : string) (d1 d2 : option unit),
    f1 <> f2 ->
    let a1 := Results.ApplySelection f1 m1 (mkResponse d1 None) in
    let a2 := Results.ApplySelection f2 m2 (mkResponse d2 None) in
    ui (Results.run w [a1; a2]) = ui (Results.run w [a2; a1]).
Proof.
  intros w f1 m1 f2 m2 d1 d2 Hne a1 a2. subst a1 a2.
  unfold Results.run. cbn [fold_left].
  rewrite !step_accepted_ui. cbv zeta.
  cbn [Results.fixtures Results.allModels Results.project Results.loading].
  rewrite !map_map.
  rewrite (map_ext _ _ (fun f => withSelection_swap f2 f1 m2 m1 _ _ f
                                   (not_eq_sym Hne))).
  reflexivity.
Qed.

(** A toggle and an accepted selection change that is answered at once
    give the same page in either order. *)
Lemma sequential_toggle_commutes :
  forall (w : World Results.State) (a fixtureId newModelId : string)
         (d : option unit),
    let t := Results.ToggleRecommendations a in
    let c := Results.ApplySelection fixtureId newModelId (mkResponse d None) in
    ui (Results.run w [t; c]) = ui (Results.run w [c; t]).
Proof.
  intros w a fixtureId newModelId d t c. subst t c.
  unfold Results.run. cbn [fold_left].
  repeat (rewrite step_accepted_ui || rewrite step_toggle_ui). cbv zeta.
  cbn [Results.fixtures Results.allModels Results.project Results.loading
       Results.totalCost].
  rewrite !map_map.
  rewrite (map_ext _ _ (fun f => withToggle_withSelection a fixtureId
                                   newModelId _ f)).
  f_equal.
  rewrite !total_is_sum.
  rewrite <- (map_ext _ _ (fun f => withToggle_withSelection a fixtureId
                                      newModelId _ f)).
  rewrite <- (map_map _ (Results.withToggle a)).
  apply toggle_keeps_sum.
Qed.



Lemma step_keeps_projection {A : Type} (field : ExtendedFixture -> A)
    (w : World Results.State) (e : Results.Event) :
  (forall f newModelId newModel,
      field (Fixture.with_selection f newModelId newModel) = field f) ->
  (forall f b, field (Fixture.with_show f b) = field f) ->
  Checks.isLoad e = false ->
  map field (Results.fixtures (ui (Results.step w e)))
  = map field (Results.fixtures (ui w)).
Proof.
  intros Hsel Hshow He. destruct e as [pid a1 a2 a3|fid mid a|fid];
    [discriminate He| |].
  - destruct a as [d [e|]]; [reflexivity|].
    rewrite step_accepted_ui. cbn [Results.fixtures]. rewrite map_map.
    apply map_ext. intro f. unfold Results.withSelection.
    destruct (String.eqb (Fixture.id f) fid); [apply Hsel | reflexivity].
  - rewrite step_toggle_ui. cbn [Results.fixtures]. rewrite map_map.
    apply map_ext. intro f. unfold Results.withToggle.
    destruct (String.eqb (Fixture.id f) fid); [apply Hshow | reflexivity].
Qed.

Lemma run_keeps_projection {A : Type} (field : ExtendedFixture -> A)
    (events : list Results.Event) :
  (forall f newModelId newModel,
      field (Fixture.with_selection f newModelId newModel) = field f) ->
  (forall f b, field (Fixture.with_show f b) = field f) ->
  forall w,
    existsb Checks.isLoad events = false ->
    map field (Results.fixtures (ui (Results.run w events)))
    = map field (Results.fixtures (ui w)).
Proof.
  intros Hsel Hshow. induction events as [|e events IH]; intros w Hno; simpl;
    [reflexivity|].
  simpl in Hno. apply orb_false_iff in Hno. destruct Hno as [He Hno].
  rewrite (IH _ Hno). apply step_keeps_projection; assumption.
Qed.

(** X9. Between loads, clicks never add, drop, reorder or renumber
    fixtures: whatever selection changes and toggles happen and whatever
    the store answers, the page holds the same fixture ids in the same
    order, with the same quantities, rooms, symbols, lux levels and
    recommendation lists. *)
Theorem clicks_keep_rows :
  forall (events : list Results.Event) (w : World Results.State),
    existsb Checks.isLoad events = false ->
    let before := Results.fixtures (ui w) in
    let after := Results.fixtures (ui (Results.run w events)) in
    map Fixture.id after = map Fixture.id before /\
    map Fixture.quantity after = map Fixture.quantity before /\
    map Fixture.room_name after = map Fixture.room_name before /\
    map Fixture.detected_symbol after = map Fixture.detected_symbol before /\
    map Fixture.lux_level after = map Fixture.lux_level before /\
    map Fixture.recommendations after = map Fixture.recommendations before.
Proof.
  intros events w Hno before after. subst before after.
  repeat split; apply run_keeps_projection; auto.
Qed.

(** X9 on the loaded sample page: a toggle, an accepted change and a
    rejected one. *)
Lemma clicks_keep_rows_witness :
  map Fixture.id
    (Results.fixtures
       (ui (Results.run Sample.loaded
              [Results.ToggleRecommendations "f-1";
               Results.ApplySelection "f-1" "m-2" (mkResponse (Some tt) None);
               Results.ApplySelection "f-2" "m-1" (failed "offline")])))
  = ["f-1"; "f-2"].
Proof.
  exact (proj1 (clicks_keep_rows
                  [Results.ToggleRecommendations "f-1";
                   Results.ApplySelection "f-1" "m-2" (mkResponse (Some tt) None);
                   Results.ApplySelection "f-2" "m-1" (failed "offline")]
                  Sample.loaded eq_refl)).
Defined.

(** * Further properties of the upload form *)

(** ** File names *)

Lemma append_assoc (a b c : string) : (a ++ b) ++ c = a ++ (b ++ c).
Proof. induction a as [|x a IH]; simpl; [reflexivity | rewrite IH; reflexivity]. Qed.

Lemma append_empty_r (a : string) : a ++ "" = a.
Proof. induction a as [|x a IH]; simpl; [reflexivity | rewrite IH; reflexivity]. Qed.

Lemma length_toLowerCase (s : string) :
  String.length (Upload.toLowerCase s) = String.length s.
Proof. induction s as [|c s IH]; simpl; [reflexivity | rewrite IH; reflexivity]. Qed.

Lemma cadExtension_length (ext : string) :
  Checks.cadExtension ext = true -> String.length ext = 3%nat.
Proof.
  unfold Checks.cadExtension. intro H. rewrite <- length_toLowerCase.
  apply orb_true_iff in H. destruct H as [H|H]; apply String.eqb_eq in H;
    rewrite H; reflexivity.
Qed.

Lemma lower_point (c : ascii) :
  Ascii.eqb (Upload.lower c) "." = Ascii.eqb c ".".
Proof.
  destruct c as [[|] [|] [|] [|] [|] [|] [|] [|]]; reflexivity.
Qed.

Lemma hasPoint_toLowerCase (s : string) :
  Checks.hasPoint (Upload.toLowerCase s) = Checks.hasPoint s.
Proof.
  induction s as [|c s IH]; simpl; [reflexivity|].
  rewrite lower_point, IH. reflexivity.
Qed.

Lemma cadExtension_no_point (ext : string) :
  Checks.cadExtension ext = true -> Checks.hasPoint ext = false.
Proof.
  unfold Checks.cadExtension. intro H. rewrite <- hasPoint_toLowerCase.
  apply orb_true_iff in H. destruct H as [H|H]; apply String.eqb_eq in H;
    rewrite H; reflexivity.
Qed.

Lemma lastSegment_no_point (s seg : string) :
  Checks.hasPoint s = false -> Upload.lastSegment s seg = seg ++ s.
Proof.
  revert seg. induction s as [|c s IH]; intros seg H; simpl.
  - symmetry. apply append_empty_r.
  - simpl in H. apply orb_false_iff in H. destruct H as [Hc Hs].
    rewrite Hc, (IH _ Hs), append_assoc. reflexivity.
Qed.

Lemma lastSegment_with_point (s seg : string) :
  Checks.hasPoint s = true ->
  Upload.lastSegment s seg = Upload.lastSegment s "".
Proof.
  revert seg. induction s as [|c s IH]; intros seg H; simpl in *;
    [discriminate H|].
  destruct (Ascii.eqb c "."); [reflexivity|]. simpl in H.
  rewrite (IH (seg ++ String c "") H), (IH (String c "") H). reflexivity.
Qed.

Lemma lastSegment_after_point (base ext seg : string) :
  Checks.hasPoint ext = false ->
  Upload.lastSegment (base ++ "." ++ ext) seg = ext.
Proof.
  intro Hext. revert seg. induction base as [|c base IH]; intro seg; simpl.
  - apply (lastSegment_no_point ext "" Hext).
  - destruct (Ascii.eqb c "."); apply IH.
Qed.

(** A name with a point is what precedes its last point, the point, and
    its last segment. *)
Lemma name_around_last_point (s : string) :
  Checks.hasPoint s = true ->
  exists base, s = base ++ "." ++ Upload.lastSegment s "".
Proof.
  induction s as [|c s IH]; intro H; [discriminate H|]. simpl in H |- *.
  destruct (Ascii.eqb_spec c ".") as [->|Hc]; simpl in H.
  - destruct (Checks.hasPoint s) eqn:Hs.
    + destruct (IH eq_refl) as [base Hbase]. exists (String "." base).
      simpl. f_equal. exact Hbase.
    + exists "". rewrite (lastSegment_no_point s "" Hs). reflexivity.
  - destruct (IH H) as [base Hbase]. exists (String c base).
    rewrite (lastSegment_with_point s _ H). simpl. f_equal. exact Hbase.
Qed.

Lemma stripCadExtension_after_point (base ext : string) :
  Checks.cadExtension ext = true ->
  Upload.stripCadExtension (base ++ "." ++ ext) = base.
Proof.
  intro Hext. induction base as [|c base IH]; simpl.
  - fold (Checks.cadExtension ext). rewrite Hext. reflexivity.
  - fold (Checks.cadExtension (base ++ String "." ext)).
    destruct (Checks.cadExtension (base ++ String "." ext)) eqn:Hlong.
    + apply cadExtension_length in Hlong, Hext.
      rewrite length_append in Hlong. simpl in Hlong. lia.
    + rewrite andb_false_r. simpl in IH. rewrite IH. reflexivity.
Qed.

Lemma stripCadExtension_no_point (s : string) :
  Checks.hasPoint s = false -> Upload.stripCadExtension s = s.
Proof.
  induction s as [|c s IH]; intro H; simpl; [reflexivity|].
  simpl in H. apply orb_false_iff in H. destruct H as [Hc Hs].
  rewrite Hc, (IH Hs). reflexivity.
Qed.

(** The two tests of the file handlers pass exactly for a file of at most
    52428800 bytes whose name is the letters [dwg] or [dxf] or ends with a
    point followed by them, in any case. *)
Lemma acceptable_iff_cad_name :
  forall f : Upload.File,
    Checks.acceptable f = true <->
    Upload.size f <= 52428800 /\
    exists ext,
      Checks.cadExtension ext = true /\
      (Upload.name f = ext \/ exists base, Upload.name f = base ++ "." ++ ext).
Proof.
  intro f. unfold Checks.acceptable.
  fold (Checks.cadExtension (Upload.lastSegment (Upload.name f) "")).
  rewrite andb_true_iff, Z.leb_le. split.
  - intros [Hext Hsize]. split; [exact Hsize|].
    exists (Upload.lastSegment (Upload.name f) ""). split; [exact Hext|].
    destruct (Checks.hasPoint (Upload.name f)) eqn:Hp.
    + right. apply name_around_last_point, Hp.
    + left. rewrite (lastSegment_no_point _ "" Hp). reflexivity.
  - intros [Hsize [ext [Hext [Hname|[base Hname]]]]]; split; try exact Hsize;
      rewrite Hname.
    + rewrite (lastSegment_no_point ext "" (cadExtension_no_point ext Hext)).
      exact Hext.
    + rewrite (lastSegment_after_point base ext ""
                 (cadExtension_no_point ext Hext)).
      exact Hext.
Qed.

(** ** Choosing a file *)

Lemma acceptable_tests (f : Upload.File) :
  Checks.acceptable f = true ->
  negb (String.eqb (Upload.toLowerCase (Upload.lastSegment (Upload.name f) ""))
          "dwg")
  && negb (String.eqb
             (Upload.toLowerCase (Upload.lastSegment (Upload.name f) "")) "dxf")
  = false /\
  (50 * 1024 * 1024 <? Upload.size f) = false.
Proof.
  unfold Checks.acceptable. intro H. apply andb_true_iff in H.
  destruct H as [Hext Hsize]. split.
  - rewrite <- negb_orb, Hext. reflexivity.
  - apply Z.ltb_ge. apply Z.leb_le in Hsize. exact Hsize.
Qed.

Lemma unacceptable_tests (f : Upload.File) :
  Checks.acceptable f = false ->
  negb (String.eqb (Upload.toLowerCase (Upload.lastSegment (Upload.name f) ""))
          "dwg")
  && negb (String.eqb
             (Upload.toLowerCase (Upload.lastSegment (Upload.name f) "")) "dxf")
  = negb (Checks.cadExtension (Upload.lastSegment (Upload.name f) "")) /\
  (Checks.cadExtension (Upload.lastSegment (Upload.name f) "") = true ->
   (50 * 1024 * 1024 <? Upload.size f) = true).
Proof.
  unfold Checks.acceptable.
  fold (Checks.cadExtension (Upload.lastSegment (Upload.name f) "")).
  intro H. split.
  - unfold Checks.cadExtension. rewrite negb_orb. reflexivity.
  - intro Hext. rewrite Hext in H. simpl in H.
    apply Z.ltb_lt. apply Z.leb_gt in H. exact H.
Qed.

Lemma handleFileChange_accepted (w : World Upload.State) (f : Upload.File) :
  Checks.acceptable f = true ->
  exec (Upload.handleFileChange (Some f)) w
  = let s := ui w in
    mkWorld
      (Upload.mkState (Some f)
         (if String.eqb (Upload.projectName s) ""
          then Upload.stripCadExtension (Upload.name f)
          else Upload.projectName s)
         (Upload.uploading s) (Upload.uploadProgress s) "" false
         (Upload.navigation s))
      (console w) (calls w).
Proof.
  intro Hacc. destruct (acceptable_tests f Hacc) as [T1 T2].
  unfold exec, Upload.handleFileChange. cbv zeta. rewrite T1, T2.
  destruct w as [[file pn u up err su nav] c k].
  unfold bind, Upload.setError, Upload.setSuccess, Upload.setFile,
    Upload.setProjectName, modify, get, ret. cbn.
  destruct (String.eqb pn ""); reflexivity.
Qed.

(** X11. A file the form accepts becomes the chosen file, and any message
    or success notice is cleared. A project name already typed is never
    overwritten; an empty one is filled from the file name: what precedes
    the extension when the name ends in a point and the extension, the
    whole name when it has no point. Nothing is sent or logged. *)
Theorem accepted_file_is_selected :
  forall (w : World Upload.State) (f : Upload.File),
    Checks.acceptable f = true ->
    let w' := exec (Upload.handleFileChange (Some f)) w in
    Upload.file (ui w') = Some f /\
    Upload.error (ui w') = "" /\
    Upload.success (ui w') = false /\
    console w' = console w /\
    calls w' = calls w /\
    (Upload.projectName (ui w) <> "" ->
     Upload.projectName (ui w') = Upload.projectName (ui w)) /\
    (Upload.projectName (ui w) = "" ->
     (forall base ext,
         Checks.cadExtension ext = true ->
         Upload.name f = base ++ "." ++ ext ->
         Upload.projectName (ui w') = base) /\
     (Checks.hasPoint (Upload.name f) = false ->
      Upload.projectName (ui w') = Upload.name f)).
Proof.
  intros w f Hacc w'. subst w'. rewrite (handleFileChange_accepted w f Hacc).
  cbv zeta. cbn [ui console calls Upload.file Upload.error Upload.success
                 Upload.projectName].
  repeat match goal with |- _ /\ _ => split end; try reflexivity.
  - intro Hne. apply String.eqb_neq in Hne. rewrite Hne. reflexivity.
  - intro Hempty. rewrite Hempty, String.eqb_refl. split.
    + intros base ext Hext Hname. rewrite Hname.
      apply stripCadExtension_after_point, Hext.
    + intro Hp. apply stripCadExtension_no_point, Hp.
Qed.

(** X11 on a drawing of exactly 50 MB whose name has two points, chosen in
    an empty form. *)
Lemma accepted_file_is_selected_witness :
  let w := mkWorld (Upload.mkState None "" false 0 "old message" true None) [] [] in
  let f := Upload.mkFile "plan.v2.DWG" 52428800 in
  let w' := exec (Upload.handleFileChange (Some f)) w in
  Upload.file (ui w') = Some f /\
  Upload.error (ui w') = "" /\
  Upload.projectName (ui w') = "plan.v2".
Proof.
  intros w f w'.
  destruct (accepted_file_is_selected w f eq_refl)
    as [Hfile [Herr [_ [_ [_ [_ Hname]]]]]].
  split; [exact Hfile|]. split; [exact Herr|].
  exact (proj1 (Hname eq_refl) "plan.v2" "DWG" eq_refl eq_refl).
Defined.

Lemma handleDrop_accepted :
  forall (w : World Upload.State) (f : Upload.File),
    Checks.acceptable f = true ->
    exec (Upload.handleDrop (Some f)) w
    = exec (Upload.handleFileChange (Some f)) w.
Proof.
  intros w f Hacc. rewrite (handleFileChange_accepted w f Hacc).
  destruct (acceptable_tests f Hacc) as [T1 T2].
  unfold exec, Upload.handleDrop. cbv zeta. rewrite T1, T2.
  destruct w as [[file pn u up err su nav] c k].
  unfold bind, Upload.setError, Upload.setSuccess, Upload.setFile,
    Upload.setProjectName, modify, get, ret. cbn.
  destruct (String.eqb pn ""); reflexivity.
Qed.

(** X12. Dropping a file the form accepts has the same effect as choosing
    it through the file input. *)
Theorem drop_selects_like_input :
  forall (w : World Upload.State) (f : Upload.File),
    Checks.acceptable f = true ->
    exec (Upload.handleDrop (Some f)) w
    = exec (Upload.handleFileChange (Some f)) w.
Proof. exact handleDrop_accepted. Qed.

(** X12 on the sample form and a one-kilobyte drawing. *)
Lemma drop_selects_like_input_witness :
  exec (Upload.handleDrop (Some (Upload.mkFile "hall.dxf" 1024))) Sample.upload
  = exec (Upload.handleFileChange (Some (Upload.mkFile "hall.dxf" 1024)))
      Sample.upload.
Proof.
  apply (drop_selects_like_input Sample.upload (Upload.mkFile "hall.dxf" 1024)).
  reflexivity.
Defined.

Lemma handlers_rejected :
  forall (w : World Upload.State) (f : Upload.File),
    Checks.acceptable f = false ->
    let wi := exec (Upload.handleFileChange (Some f)) w in
    let wd := exec (Upload.handleDrop (Some f)) w in
    Upload.file (ui wi) = None /\
    Upload.success (ui wi) = false /\
    Upload.file (ui wd) = Upload.file (ui w) /\
    Upload.success (ui wd) = Upload.success (ui w) /\
    Upload.projectName (ui wi) = Upload.projectName (ui w) /\
    Upload.projectName (ui wd) = Upload.projectName (ui w) /\
    Upload.error (ui wd) = Upload.error (ui wi) /\
    Upload.error (ui wi)
    = (if Checks.cadExtension (Upload.lastSegment (Upload.name f) "")
       then "File size must be less than 50MB"
       else "Please upload a valid .dwg or .dxf file").
Proof.
  intros w f Hrej wi wd. subst wi wd.
  destruct (unacceptable_tests f Hrej) as [T1 T2].
  unfold exec, Upload.handleFileChange, Upload.handleDrop. cbv zeta.
  rewrite T1.
  destruct (Checks.cadExtension (Upload.lastSegment (Upload.name f) ""));
    [rewrite (T2 eq_refl)|];
    destruct w as [[file pn u up err su nav] c k];
    repeat split.
Qed.

(** X13. A file the form does not accept is treated differently by the
    two handlers. The file input clears the chosen file and the success
    notice; the drop zone keeps whatever file was chosen before and the
    success notice. Both show the same message and keep the project name;
    a wrong extension is reported even when the file is also too large. *)
Theorem rejected_file_input_clears_drop_keeps :
  forall (w : World Upload.State) (f : Upload.File),
    Checks.acceptable f = false ->
    let wi := exec (Upload.handleFileChange (Some f)) w in
    let wd := exec (Upload.handleDrop (Some f)) w in
    Upload.file (ui wi) = None /\
    Upload.success (ui wi) = false /\
    Upload.file (ui wd) = Upload.file (ui w) /\
    Upload.success (ui wd) = Upload.success (ui w) /\
    Upload.projectName (ui wi) = Upload.projectName (ui w) /\
    Upload.projectName (ui wd) = Upload.projectName (ui w) /\
    Upload.error (ui wd) = Upload.error (ui wi) /\
    Upload.error (ui wi)
    = (if Checks.cadExtension (Upload.lastSegment (Upload.name f) "")
       then "File size must be less than 50MB"
       else "Please upload a valid .dwg or .dxf file").
Proof. exact handlers_rejected. Qed.

(** X13 on the sample form, which holds a chosen drawing, and a text
    file. *)
Lemma rejected_file_input_clears_drop_keeps_witness :
  let f := Upload.mkFile "notes.txt" 10 in
  Upload.file (ui (exec (Upload.handleFileChange (Some f)) Sample.upload)) = None /\
  Upload.file (ui (exec (Upload.handleDrop (Some f)) Sample.upload))
  = Some (Upload.mkFile "office.DXF" 1024).
Proof.
  intro f.
  destruct (rejected_file_input_clears_drop_keeps Sample.upload f eq_refl)
    as [Hi [_ [Hd _]]].
  split; [exact Hi | exact Hd].
Defined.

(** ** Submitting the form *)

(** The run of [handleSubmit] on a form that passes the two checks, by
    what the store answers. *)
Lemma handleSubmit_valid (random : nat -> Q) (w : World Upload.State)
    (f : Upload.File) (a1 : Response Project)
    (a2 : Response (list FixtureModel)) (a3 : Response unit) :
  Upload.file (ui w) = Some f ->
  Upload.blank (Upload.projectName (ui w)) = false ->
  exec (Upload.handleSubmit random a1 a2 a3) w
  = let s := ui w in
    let totalFixtures := Upload.randomBelow random 0 50 + 10 in
    let row :=
      mkProjectInsert (Upload.projectName s) (Upload.name f)
        (JS.or_str (Upload.toLowerCase (Upload.lastSegment (Upload.name f) "")) "")
        totalFixtures (totalFixtures * 3550)
        (Upload.whole (Upload.randomBelow random 1 200 + 300))
        "00000000-0000-0000-0000-000000000000" in
    let ended error success navigation :=
      Upload.mkState (Some f) (Upload.projectName s) false 100 error success
        navigation in
    let thrown e sent :=
      mkWorld
        (ended "Failed to upload and process file. Please try again." false
           (Upload.navigation s))
        (("Upload error:", e) :: console w)
        (sent ++ InsertProject row :: calls w)%list in
    match Supabase.error a1 with
    | Some e => thrown e []
    | None =>
        match Supabase.error a2 with
        | Some e => thrown e [SelectModelsLimit 5]
        | None =>
            match data a1, data a2 with
            | Some projectData, Some models =>
                match
                  Upload.pushRows random (Project.id projectData) models 0
                    (Z.to_nat (Z.min totalFixtures 15)) []
                with
                | Abrupt e => thrown e [SelectModelsLimit 5]
                | Normal rows =>
                    match Supabase.error a3 with
                    | Some e =>
                        thrown e [InsertFixtures rows; SelectModelsLimit 5]
                    | None =>
                        mkWorld
                          (ended "" true
                             (Some ("results", Project.id projectData)))
                          (console w)
                          (InsertFixtures rows :: SelectModelsLimit 5
                           :: InsertProject row :: calls w)
                    end
                end
            | _, _ =>
                mkWorld (ended "" false (Upload.navigation s)) (console w)
                  (SelectModelsLimit 5 :: InsertProject row :: calls w)
            end
        end
    end.
Proof.
  destruct w as [[file pn u up err su nav] c k]. cbn [ui Upload.file
    Upload.projectName]. intros -> Hblank.
  unfold exec, Upload.handleSubmit.
  upload_step Hblank. rewrite Hblank.
  destruct a1 as [d1 [e1|]]; upload_step Hblank; [reflexivity|].
  destruct a2 as [d2 [e2|]]; upload_step Hblank; [reflexivity|].
  destruct d1 as [projectData|]; upload_step Hblank;
    [|destruct d2; reflexivity].
  destruct d2 as [models|]; upload_step Hblank; [|reflexivity].
  destruct (Upload.pushRows random (Project.id projectData) models 0
              (Z.to_nat (Z.min (Upload.randomBelow random 0 50 + 10) 15)) [])
    as [rows|e]; upload_step Hblank; [|reflexivity].
  destruct a3 as [d3 [e3|]]; reflexivity.
Qed.

(** The run of [handleSubmit] on a form that fails one of the two checks. *)
Lemma handleSubmit_invalid :
  forall (random : nat -> Q) (w : World Upload.State)
         (a1 : Response Project) (a2 : Response (list FixtureModel))
         (a3 : Response unit),
    Upload.file (ui w) = None
    \/ Upload.blank (Upload.projectName (ui w)) = true ->
    let s := ui w in
    exec (Upload.handleSubmit random a1 a2 a3) w
    = mkWorld
        (Upload.mkState (Upload.file s) (Upload.projectName s)
           (Upload.uploading s) (Upload.uploadProgress s)
           (match Upload.file s with
            | None => "Please select a file to upload"
            | Some _ => "Please enter a project name"
            end)
           false (Upload.navigation s))
        (console w) (calls w).
Proof.
  intros random w a1 a2 a3 H. destruct w as [[file pn u up err su nav] c k].
  cbn [ui Upload.file Upload.projectName] in H. cbv zeta.
  unfold exec, Upload.handleSubmit.
  destruct file as [file|]; upload_step H; [|reflexivity].
  destruct H as [H|H]; [discriminate H|]. rewrite H. reflexivity.
Qed.

(** X14. A form without a chosen file, or whose project name is blank,
    is turned down before anything is sent: no request, no log entry, no
    progress; only the message changes, and a missing file is reported
    before a blank name. *)
Theorem invalid_form_sends_nothing :
  forall (random : nat -> Q) (w : World Upload.State)
         (a1 : Response Project) (a2 : Response (list FixtureModel))
         (a3 : Response unit),
    Upload.file (ui w) = None
    \/ Upload.blank (Upload.projectName (ui w)) = true ->
    let w' := exec (Upload.handleSubmit random a1 a2 a3) w in
    calls w' = calls w /\
    console w' = console w /\
    Upload.success (ui w') = false /\
    Upload.uploading (ui w') = Upload.uploading (ui w) /\
    Upload.uploadProgress (ui w') = Upload.uploadProgress (ui w) /\
    Upload.navigation (ui w') = Upload.navigation (ui w) /\
    Upload.error (ui w')
    = match Upload.file (ui w) with
      | None => "Please select a file to upload"
      | Some _ => "Please enter a project name"
      end.
Proof.
  intros random w a1 a2 a3 H w'. subst w'.
  rewrite (handleSubmit_invalid random w a1 a2 a3 H).
  repeat split.
Qed.

(** X14 on a form with a drawing and a project name of spaces only. *)
Lemma invalid_form_sends_nothing_witness :
  let w :=
    mkWorld
      (Upload.mkState (Some (Upload.mkFile "hall.dxf" 1024)) "   " false 0 ""
         false None) [] [] in
  calls
    (exec (Upload.handleSubmit (fun _ => 1 # 2) (ok Sample.project)
             (ok Sample.catalog) (ok tt)) w) = [] /\
  Upload.error
    (ui (exec (Upload.handleSubmit (fun _ => 1 # 2) (ok Sample.project)
                 (ok Sample.catalog) (ok tt)) w))
  = "Please enter a project name".
Proof.
  intro w.
  destruct (invalid_form_sends_nothing (fun _ => 1 # 2) w (ok Sample.project)
              (ok Sample.catalog) (ok tt) (or_intror eq_refl))
    as [Hcalls [_ [_ [_ [_ [_ Herror]]]]]].
  split; [exact Hcalls | exact Herror].
Defined.

Lemma or_str_empty (a : string) : JS.or_str a "" = a.
Proof.
  unfold JS.or_str. destruct (String.eqb_spec a ""); congruence.
Qed.

(** X15. A form that passes the two checks always ends unlocked, with the
    progress bar at 100, and has sent the project insert first, whatever
    the store answers afterwards: at most two requests follow it and none
    takes it back. The inserted row carries the project name, the file
    name, the lower-case extension, a fixture count between 10 and 59, a
    total cost of 35.50 per counted fixture and a whole average lux between
    300 and 499. *)
Theorem valid_form_inserts_project_and_unlocks :
  forall (random : nat -> Q) (w : World Upload.State) (f : Upload.File)
         (a1 : Response Project) (a2 : Response (list FixtureModel))
         (a3 : Response unit),
    Upload.file (ui w) = Some f ->
    Upload.blank (Upload.projectName (ui w)) = false ->
    (forall n, (0 <= random n)%Q /\ (random n < 1)%Q) ->
    let w' := exec (Upload.handleSubmit random a1 a2 a3) w in
    Upload.uploading (ui w') = false /\
    Upload.uploadProgress (ui w') = 100 /\
    Upload.file (ui w') = Some f /\
    Upload.projectName (ui w') = Upload.projectName (ui w) /\
    exists row later,
      calls w' = (later ++ InsertProject row :: calls w)%list /\
      (List.length later <= 2)%nat /\
      pi_name row = Upload.projectName (ui w) /\
      pi_file_name row = Upload.name f /\
      pi_file_type row
      = Upload.toLowerCase (Upload.lastSegment (Upload.name f) "") /\
      10 <= pi_total_fixtures row <= 59 /\
      pi_total_cost row = 3550 * pi_total_fixtures row /\
      exists lux, 300 <= lux <= 499 /\ pi_average_lux row = 100 * lux.
Proof.
  intros random w f a1 a2 a3 Hfile Hblank Hrandom w'. subst w'.
  rewrite (handleSubmit_valid random w f a1 a2 a3 Hfile Hblank). cbv zeta.
  pose proof (randomBelow_range random 0 50 (proj1 (Hrandom 0%nat))
                (proj2 (Hrandom 0%nat)) eq_refl) as Hdraw.
  pose proof (randomBelow_range random 1 200 (proj1 (Hrandom 1%nat))
                (proj2 (Hrandom 1%nat)) eq_refl) as Hlux.
  assert (Hrow : forall row,
    row = mkProjectInsert (Upload.projectName (ui w)) (Upload.name f)
            (JS.or_str
               (Upload.toLowerCase (Upload.lastSegment (Upload.name f) "")) "")
            (Upload.randomBelow random 0 50 + 10)
            ((Upload.randomBelow random 0 50 + 10) * 3550)
            (Upload.whole (Upload.randomBelow random 1 200 + 300))
            "00000000-0000-0000-0000-000000000000" ->
    pi_name row = Upload.projectName (ui w) /\
    pi_file_name row = Upload.name f /\
    pi_file_type row
    = Upload.toLowerCase (Upload.lastSegment (Upload.name f) "") /\
    10 <= pi_total_fixtures row <= 59 /\
    pi_total_cost row = 3550 * pi_total_fixtures row /\
    exists lux, 300 <= lux <= 499 /\ pi_average_lux row = 100 * lux).
  { intros row ->. cbn [pi_name pi_file_name pi_file_type pi_total_fixtures
                        pi_total_cost pi_average_lux].
    rewrite or_str_empty. repeat split; try lia.
    exists (Upload.randomBelow random 1 200 + 300). unfold Upload.whole. lia. }
  destruct (Supabase.error a1) as [e1|];
    [|destruct (Supabase.error a2) as [e2|];
      [|destruct (data a1) as [p|], (data a2) as [models|];
        [destruct (Upload.pushRows random (Project.id p) models 0 _ [])
           as [rows|e]; [destruct (Supabase.error a3) as [e3|]|]| | |]]];
    cbn [ui calls Upload.uploading Upload.uploadProgress Upload.file
         Upload.projectName];
    (split; [reflexivity|]); (split; [reflexivity|]); (split; [reflexivity|]);
    (split; [reflexivity|]); eexists; eexists;
    (split; [|split; [|apply Hrow; reflexivity]]).
  all: try (instantiate (1 := []); reflexivity).
  all: try (instantiate (1 := [SelectModelsLimit 5]); reflexivity).
  all: try (instantiate (1 := [InsertFixtures _; SelectModelsLimit 5]);
            reflexivity).
  all: simpl; lia.
Qed.

(** X15 on the sample form when the store rejects the project insert. *)
Lemma valid_form_inserts_project_and_unlocks_witness :
  let w' :=
    exec (Upload.handleSubmit (fun _ => 1 # 2) (failed "offline")
            (ok Sample.catalog) (ok tt)) Sample.upload in
  Upload.uploading (ui w') = false /\ Upload.uploadProgress (ui w') = 100.
Proof.
  intro w'.
  destruct (valid_form_inserts_project_and_unlocks (fun _ => 1 # 2)
              Sample.upload (Upload.mkFile "office.DXF" 1024)
              (failed "offline") (ok Sample.catalog) (ok tt))
    as [H1 [H2 _]].
  - reflexivity.
  - reflexivity.
  - intro n. split; [discriminate | reflexivity].
  - split; [exact H1 | exact H2].
Defined.

(** What a run of [handleSubmit] that ends in success went through. *)
Lemma handleSubmit_success (random : nat -> Q) (w : World Upload.State)
    (a1 : Response Project) (a2 : Response (list FixtureModel))
    (a3 : Response unit) :
  Upload.success (ui (exec (Upload.handleSubmit random a1 a2 a3) w)) = true ->
  exists f p models rows row,
    Upload.file (ui w) = Some f /\
    a1 = mkResponse (Some p) None /\
    a2 = mkResponse (Some models) None /\
    Upload.pushRows random (Project.id p) models 0
      (Z.to_nat (Z.min (Upload.randomBelow random 0 50 + 10) 15)) []
    = Normal rows /\
    exec (Upload.handleSubmit random a1 a2 a3) w
    = mkWorld
        (Upload.mkState (Some f) (Upload.projectName (ui w)) false 100 "" true
           (Some ("results", Project.id p)))
        (console w)
        (InsertFixtures rows :: SelectModelsLimit 5 :: InsertProject row
         :: calls w).
Proof.
  intro Hs.
  destruct (Upload.file (ui w)) as [f|] eqn:Hfile;
    [|rewrite (handleSubmit_invalid random w a1 a2 a3 (or_introl Hfile)) in Hs;
      discriminate Hs].
  destruct (Upload.blank (Upload.projectName (ui w))) eqn:Hblank;
    [rewrite (handleSubmit_invalid random w a1 a2 a3 (or_intror Hblank)) in Hs;
     discriminate Hs|].
  rewrite (handleSubmit_valid random w f a1 a2 a3 Hfile Hblank) in Hs |- *.
  cbv zeta in Hs |- *.
  destruct a1 as [d1 [e1|]]; [discriminate Hs|].
  destruct a2 as [d2 [e2|]]; [discriminate Hs|].
  cbn [Supabase.error data] in Hs |- *.
  destruct d1 as [p|]; [|discriminate Hs].
  destruct d2 as [models|]; [|discriminate Hs].
  destruct (Upload.pushRows random (Project.id p) models 0
              (Z.to_nat (Z.min (Upload.randomBelow random 0 50 + 10) 15)) [])
    as [rows|e] eqn:Hrows; [|discriminate Hs].
  destruct (Supabase.error a3) as [e3|]; [discriminate Hs|].
  exists f, p, models, rows. eexists.
  repeat split; try reflexivity; exact Hrows.
Qed.

(** X16. An upload that ends in success shows no message, logs nothing,
    unlocks the form and schedules the navigation to the results page with
    the id of the project row the store returned. The shell then shows the
    results page with that id, and when the id is not empty the first
    request of that page asks for this project. *)
Theorem successful_upload_lands_on_its_project :
  forall (random : nat -> Q) (w : World Upload.State)
         (a1 : Response Project) (a2 : Response (list FixtureModel))
         (a3 : Response unit),
    let w' := exec (Upload.handleSubmit random a1 a2 a3) w in
    Upload.success (ui w') = true ->
    Upload.error (ui w') = "" /\
    Upload.uploading (ui w') = false /\
    console w' = console w /\
    exists p,
      data a1 = Some p /\
      Upload.navigation (ui w') = Some ("results", Project.id p) /\
      (forall shell,
          App.renderPage
            (App.handleNavigate "results" (Some (Project.id p)) shell)
          = App.Results (Some (Project.id p))) /\
      (Project.id p <> "" ->
       forall (page : World Results.State) b1 b2 b3,
       exists later,
         calls (exec (Results.onProjectId (Some (Project.id p)) b1 b2 b3) page)
         = (later ++ SelectProject (Project.id p) :: calls page)%list).
Proof.
  intros random w a1 a2 a3 w' Hs. subst w'.
  destruct (handleSubmit_success random w a1 a2 a3 Hs)
    as [f [p [models [rows [row [_ [-> [_ [_ Hw]]]]]]]]].
  rewrite Hw. cbn [ui console Upload.error Upload.uploading Upload.navigation
                   data].
  repeat split. exists p. repeat split.
  intros Hid page b1 b2 b3. unfold Results.onProjectId.
  apply String.eqb_neq in Hid. rewrite Hid.
  destruct b1 as [d1 [e1|]];
    [exists []; reflexivity|].
  destruct b2 as [d2 [e2|]];
    [exists [SelectFixtures (Project.id p)]; reflexivity|].
  exists [SelectModels; SelectFixtures (Project.id p)].
  destruct b3 as [d3 [e3|]]; reflexivity.
Qed.

(** X16 on the sample form when every random number is one half. *)
Lemma successful_upload_lands_on_its_project_witness :
  Upload.navigation
    (ui (exec (Upload.handleSubmit (fun _ => 1 # 2) (ok Sample.project)
                 (ok Sample.catalog) (ok tt)) Sample.upload))
  = Some ("results", "p-1").
Proof.
  destruct (successful_upload_lands_on_its_project (fun _ => 1 # 2)
              Sample.upload (ok Sample.project) (ok Sample.catalog) (ok tt)
              eq_refl)
    as [_ [_ [_ [p [Hp [Hnav _]]]]]].
  injection Hp as <-. exact Hnav.
Defined.

(** X17. When the catalog request returns no model, the upload fails
    after the project row has been inserted: no fixture rows are sent, the
    failure message is shown and the error is logged. The stored project is
    left without fixtures. *)
Theorem empty_catalog_leaves_project_without_fixtures :
  forall (random : nat -> Q) (w : World Upload.State) (f : Upload.File)
         (p : Project) (a3 : Response unit),
    Upload.file (ui w) = Some f ->
    Upload.blank (Upload.projectName (ui w)) = false ->
    (0 <= random 0%nat)%Q /\ (random 0%nat < 1)%Q ->
    let w' := exec (Upload.handleSubmit random (ok p) (ok []) a3) w in
    Upload.success (ui w') = false /\
    Upload.error (ui w')
    = "Failed to upload and process file. Please try again." /\
    console w' = ("Upload error:", "TypeError") :: console w /\
    exists row,
      calls w' = SelectModelsLimit 5 :: InsertProject row :: calls w.
Proof.
  intros random w f p a3 Hfile Hblank [H0 H1] w'. subst w'.
  rewrite (handleSubmit_valid random w f (ok p) (ok []) a3 Hfile Hblank).
  cbv zeta. cbn [Supabase.error data ok].
  pose proof (randomBelow_range random 0 50 H0 H1 eq_refl) as Hdraw.
  destruct (Z.to_nat (Z.min (Upload.randomBelow random 0 50 + 10) 15))
    as [|count] eqn:Hcount; [lia|].
  cbn [Upload.pushRows]. unfold Upload.fixtureRow, Upload.index.
  cbn [List.length Z.of_nat].
  destruct (Upload.randomBelow random (2 + 5 * 0) 0 <? 0);
    [|destruct (Z.to_nat (Upload.randomBelow random (2 + 5 * 0) 0))];
    cbn [nth_error]; repeat split; eexists; reflexivity.
Qed.

(** X17 on the sample form. *)
Lemma empty_catalog_leaves_project_without_fixtures_witness :
  Upload.success
    (ui (exec (Upload.handleSubmit (fun _ => 1 # 2) (ok Sample.project) (ok [])
                 (ok tt)) Sample.upload)) = false.
Proof.
  refine (proj1 (empty_catalog_leaves_project_without_fixtures (fun _ => 1 # 2)
                   Sample.upload (Upload.mkFile "office.DXF" 1024)
                   Sample.project (ok tt) _ _ _)).
  - reflexivity.
  - reflexivity.
  - split; [discriminate | reflexivity].
Defined.

(** X18. When the store reports no error but hands back no project row,
    or no model list, the upload ends in silence: the form is unlocked
    with neither the success notice nor a message, nothing is logged, and
    no fixture rows are sent after the project insert. *)
Theorem missing_data_ends_in_silence :
  forall (random : nat -> Q) (w : World Upload.State) (f : Upload.File)
         (d1 : option Project) (d2 : option (list FixtureModel))
         (a3 : Response unit),
    Upload.file (ui w) = Some f ->
    Upload.blank (Upload.projectName (ui w)) = false ->
    d1 = None \/ d2 = None ->
    let w' :=
      exec (Upload.handleSubmit random (mkResponse d1 None) (mkResponse d2 None)
              a3) w in
    Upload.success (ui w') = false /\
    Upload.error (ui w') = "" /\
    Upload.uploading (ui w') = false /\
    console w' = console w /\
    exists row,
      calls w' = SelectModelsLimit 5 :: InsertProject row :: calls w.
Proof.
  intros random w f d1 d2 a3 Hfile Hblank Hmissing w'. subst w'.
  rewrite (handleSubmit_valid random w f _ _ a3 Hfile Hblank).
  cbv zeta. cbn [Supabase.error data].
  destruct Hmissing as [-> | ->]; [|destruct d1];
    repeat split; eexists; reflexivity.
Qed.

(** X18 on the sample form when the project insert returns no row. *)
Lemma missing_data_ends_in_silence_witness :
  let w' :=
    exec (Upload.handleSubmit (fun _ => 1 # 2) (mkResponse None None)
            (mkResponse (Some Sample.catalog) None) (ok tt)) Sample.upload in
  Upload.success (ui w') = false /\ Upload.error (ui w') = "".
Proof.
  intro w'.
  destruct (missing_data_ends_in_silence (fun _ => 1 # 2) Sample.upload
              (Upload.mkFile "office.DXF" 1024) None (Some Sample.catalog)
              (ok tt) eq_refl eq_refl (or_introl eq_refl))
    as [H1 [H2 _]].
  split; [exact H1 | exact H2].
Defined.

(** ** The generated fixture rows *)

Lemma index_in_range {A : Type} (l : list A) (k : Z) :
  0 <= k < Z.of_nat (List.length l) ->
  exists x, Upload.index l k = Some x /\ In x l.
Proof.
  intros [H0 H1]. unfold Upload.index.
  replace (k <? 0) with false by (symmetry; apply Z.ltb_ge; exact H0).
  destruct (nth_error l (Z.to_nat k)) as [x|] eqn:Hx.
  - exists x. split; [reflexivity | apply (nth_error_In _ _ Hx)].
  - apply nth_error_None in Hx. lia.
Qed.

Lemma index_Some_In {A : Type} (l : list A) (k : Z) (x : A) :
  Upload.index l k = Some x -> In x l.
Proof.
  unfold Upload.index. destruct (k <? 0); [discriminate|].
  apply nth_error_In.
Qed.

Lemma fixtureRow_well_formed (random : nat -> Q) (projectId : string)
    (models : list FixtureModel) (i : nat) (r : FixtureInsert) :
  (forall n, (0 <= random n)%Q /\ (random n < 1)%Q) ->
  Upload.fixtureRow random projectId models i = Normal r ->
  fi_project_id r = projectId /\
  (exists m, In m models /\ fi_selected_model_id r = FixtureModel.id m) /\
  (exists room, fi_room_name r = Some room /\ In room Upload.rooms) /\
  (exists symbol, fi_detected_symbol r = Some symbol /\ In symbol Upload.symbols) /\
  1 <= fi_quantity r <= 5 /\
  (exists lux, 300 <= lux <= 499 /\ fi_lux_level r = 100 * lux).
Proof.
  intros Hrandom. unfold Upload.fixtureRow. cbv zeta.
  destruct (Upload.index models _) as [m|] eqn:Hm; [|discriminate].
  intro H. injection H as <-.
  cbn [fi_project_id fi_selected_model_id fi_room_name fi_detected_symbol
       fi_quantity fi_lux_level].
  pose proof (fun n k => randomBelow_range random n k (proj1 (Hrandom n))
                           (proj2 (Hrandom n))) as Hrange.
  split; [reflexivity|]. split.
  { exists m. split; [apply (index_Some_In _ _ _ Hm) | reflexivity]. }
  split.
  { destruct (index_in_range Upload.rooms
                (Upload.randomBelow random (2 + 5 * i + 1)
                   (Z.of_nat (List.length Upload.rooms))))
      as [room [Hroom Hin]]; [apply Hrange; reflexivity|].
    exists room. split; assumption. }
  split.
  { destruct (index_in_range Upload.symbols
                (Upload.randomBelow random (2 + 5 * i + 2)
                   (Z.of_nat (List.length Upload.symbols))))
      as [symbol [Hsymbol Hin]]; [apply Hrange; reflexivity|].
    exists symbol. split; assumption. }
  split.
  { match goal with
    | |- context [Upload.randomBelow random ?n 5] =>
        pose proof (Hrange n 5 eq_refl)
    end. lia. }
  match goal with
  | |- context [Upload.randomBelow random ?n 200] =>
      exists (Upload.randomBelow random n 200 + 300);
      pose proof (Hrange n 200 eq_refl)
  end.
  unfold Upload.whole. lia.
Qed.

Lemma pushRows_Forall (random : nat -> Q) (projectId : string)
    (models : list FixtureModel) (P : FixtureInsert -> Prop) :
  (forall i r, Upload.fixtureRow random projectId models i = Normal r -> P r) ->
  forall count from fixturesData rows,
    Forall P fixturesData ->
    Upload.pushRows random projectId models from count fixturesData
    = Normal rows ->
    Forall P rows.
Proof.
  intro Hrow. induction count as [|count IH];
    intros from fixturesData rows Hacc H; simpl in H.
  - injection H as <-. exact Hacc.
  - destruct (Upload.fixtureRow random projectId models from) as [row|e] eqn:Hr;
      [|discriminate H].
    apply (IH _ _ _ (proj2 (Forall_app _ _ _)
                       (conj Hacc (Forall_cons _ (Hrow _ _ Hr) (Forall_nil _)))) H).
Qed.

(** X19. Every fixture row that a successful upload inserts belongs to
    the project row the store returned, selects one of the models the
    catalog request returned, names one of the five rooms and one of the
    five symbols, and carries a quantity from 1 to 5 and a whole lux level
    from 300 to 499. *)
Theorem inserted_rows_are_well_formed :
  forall (random : nat -> Q) (w : World Upload.State)
         (a1 : Response Project) (a2 : Response (list FixtureModel))
         (a3 : Response unit),
    (forall n, (0 <= random n)%Q /\ (random n < 1)%Q) ->
    let w' := exec (Upload.handleSubmit random a1 a2 a3) w in
    Upload.success (ui w') = true ->
    exists p models rows rest,
      data a1 = Some p /\
      data a2 = Some models /\
      calls w' = InsertFixtures rows :: rest /\
      forall r,
        In r rows ->
        fi_project_id r = Project.id p /\
        (exists m, In m models /\ fi_selected_model_id r = FixtureModel.id m) /\
        (exists room, fi_room_name r = Some room /\ In room Upload.rooms) /\
        (exists symbol,
            fi_detected_symbol r = Some symbol /\ In symbol Upload.symbols) /\
        1 <= fi_quantity r <= 5 /\
        (exists lux, 300 <= lux <= 499 /\ fi_lux_level r = 100 * lux).
Proof.
  intros random w a1 a2 a3 Hrandom w' Hs. subst w'.
  destruct (handleSubmit_success random w a1 a2 a3 Hs)
    as [f [p [models [rows [row [_ [-> [-> [Hrows Hw]]]]]]]]].
  rewrite Hw. exists p, models, rows. eexists.
  split; [reflexivity|]. split; [reflexivity|]. split; [reflexivity|].
  apply Forall_forall.
  apply (pushRows_Forall random (Project.id p) models _
           (fun i r => fixtureRow_well_formed random (Project.id p) models i r
                         Hrandom)
           _ _ _ _ (Forall_nil _) Hrows).
Qed.

(** X19 on the sample form when every random number is one half: every
    inserted row has a quantity from 1 to 5. *)
Lemma inserted_rows_are_well_formed_witness :
  exists rows rest,
    calls
      (exec (Upload.handleSubmit (fun _ => 1 # 2) (ok Sample.project)
               (ok Sample.catalog) (ok tt)) Sample.upload)
    = InsertFixtures rows :: rest /\
    forall r, In r rows -> 1 <= fi_quantity r <= 5.
Proof.
  destruct (inserted_rows_are_well_formed (fun _ => 1 # 2) Sample.upload
              (ok Sample.project) (ok Sample.catalog) (ok tt))
    as [p [models [rows [rest [_ [_ [Hcalls Hrows]]]]]]].
  - intro n. split; [discriminate | reflexivity].
  - reflexivity.
  - exists rows, rest. split; [exact Hcalls|].
    intros r Hr. exact (proj1 (proj2 (proj2 (proj2 (proj2 (Hrows r Hr)))))).
Defined.

(** ** Removing the file *)

(** X20. After the chosen file is removed, the form keeps its project
    name but a submit is turned down at once, with the request to select a
    file and without anything being sent or logged. *)
Theorem removed_file_blocks_submit :
  forall (random : nat -> Q) (w : World Upload.State)
         (a1 : Response Project) (a2 : Response (list FixtureModel))
         (a3 : Response unit),
    let w1 := exec Upload.removeFile w in
    let w2 := exec (Upload.handleSubmit random a1 a2 a3) w1 in
    Upload.file (ui w1) = None /\
    Upload.projectName (ui w1) = Upload.projectName (ui w) /\
    Upload.error (ui w1) = "" /\
    Upload.error (ui w2) = "Please select a file to upload" /\
    Upload.success (ui w2) = false /\
    calls w2 = calls w /\
    console w2 = console w.
Proof.
  intros random w a1 a2 a3 w1 w2.
  assert (Hnone : Upload.file (ui w1) = None) by reflexivity.
  subst w2.
  rewrite (handleSubmit_invalid random w1 a1 a2 a3 (or_introl Hnone)).
  cbv zeta. rewrite Hnone. repeat split.
Qed.

(** * Selection changes that overlap *)

(** A click whose request is answered before any other event is the
    handler run to completion. *)
Lemma answered_at_once (w : World Results.State) (fixtureId newModelId : string)
    (answer : Response unit) (rest : list InFlight.Event) :
  InFlight.run (InFlight.idle w)
    (InFlight.Click fixtureId newModelId :: InFlight.Answer 0 answer :: rest)
  = InFlight.run
      (InFlight.idle
         (Results.step w (Results.ApplySelection fixtureId newModelId answer)))
      rest.
Proof.
  unfold InFlight.run. cbn [fold_left]. f_equal.
  all: destruct answer as [d [e|]]; reflexivity.
Qed.

Lemma toggled_at_once (w : World Results.State) (fixtureId : string)
    (rest : list InFlight.Event) :
  InFlight.run (InFlight.idle w) (InFlight.Toggle fixtureId :: rest)
  = InFlight.run
      (InFlight.idle (Results.step w (Results.ToggleRecommendations fixtureId)))
      rest.
Proof. reflexivity. Qed.

(** X6. Two accepted selection changes of different fixtures commute when
    each is answered before the other is clicked: in either order the page
    ends with the same fixtures and the same total, and nothing is left
    pending. *)
Theorem settled_selections_commute :
  forall (w : World Results.State) (f1 m1 f2 m2 : string) (d1 d2 : option unit),
    f1 <> f2 ->
    let first :=
      InFlight.run (InFlight.idle w)
        [InFlight.Click f1 m1; InFlight.Answer 0 (mkResponse d1 None);
         InFlight.Click f2 m2; InFlight.Answer 0 (mkResponse d2 None)] in
    let second :=
      InFlight.run (InFlight.idle w)
        [InFlight.Click f2 m2; InFlight.Answer 0 (mkResponse d2 None);
         InFlight.Click f1 m1; InFlight.Answer 0 (mkResponse d1 None)] in
    ui (InFlight.world first) = ui (InFlight.world second) /\
    InFlight.pending first = [] /\
    InFlight.pending second = [].
Proof.
  intros w f1 m1 f2 m2 d1 d2 Hne first second. subst first second.
  rewrite !answered_at_once. cbn [InFlight.run fold_left InFlight.idle
    InFlight.world InFlight.pending].
  split; [|split; reflexivity].
  exact (sequential_selections_commute w f1 m1 f2 m2 d1 d2 Hne).
Qed.

(** X6 on the loaded sample page, for its two fixtures. *)
Lemma settled_selections_commute_witness :
  ui (InFlight.world
        (InFlight.run (InFlight.idle Sample.loaded)
           [InFlight.Click "f-1" "m-2"; InFlight.Answer 0 (mkResponse (Some tt) None);
            InFlight.Click "f-2" "m-1"; InFlight.Answer 0 (mkResponse (Some tt) None)]))
  = ui (InFlight.world
          (InFlight.run (InFlight.idle Sample.loaded)
             [InFlight.Click "f-2" "m-1"; InFlight.Answer 0 (mkResponse (Some tt) None);
              InFlight.Click "f-1" "m-2"; InFlight.Answer 0 (mkResponse (Some tt) None)])).
Proof.
  refine (proj1 (settled_selections_commute Sample.loaded "f-1" "m-2" "f-2" "m-1"
                   (Some tt) (Some tt) _)).
  discriminate.
Defined.

(** X7. A toggle and an accepted selection change commute when the toggle
    does not fall between the click and the answer: toggling before the
    click or after the answer gives the same page. *)
Theorem settled_toggle_commutes :
  forall (w : World Results.State) (a fixtureId newModelId : string)
         (d : option unit),
    ui (InFlight.world
          (InFlight.run (InFlight.idle w)
             [InFlight.Toggle a; InFlight.Click fixtureId newModelId;
              InFlight.Answer 0 (mkResponse d None)]))
    = ui (InFlight.world
            (InFlight.run (InFlight.idle w)
               [InFlight.Click fixtureId newModelId;
                InFlight.Answer 0 (mkResponse d None); InFlight.Toggle a])).
Proof.
  intros w a fixtureId newModelId d.
  rewrite toggled_at_once, !answered_at_once, toggled_at_once.
  cbn [InFlight.run fold_left InFlight.idle InFlight.world].
  exact (sequential_toggle_commutes w a fixtureId newModelId d).
Qed.

(** X21. Two selection changes clicked on the same render, both accepted
    by the store: when the second answer arrives the handler writes the
    list it captured at its click, so the page ends as if only the change
    answered last had been made. Both updates were sent, and for different
    fixture ids every fixture of the change answered first is on the page
    as it was before the clicks, whichever of the two answers came
    first. *)
Theorem overlapping_selections_keep_the_last :
  forall (w : World Results.State) (f1 m1 f2 m2 : string) (d1 d2 : option unit),
    f1 <> f2 ->
    let a1 := mkResponse d1 None in
    let a2 := mkResponse d2 None in
    let clicks := [InFlight.Click f1 m1; InFlight.Click f2 m2] in
    let inOrder :=
      InFlight.run (InFlight.idle w)
        (clicks ++ [InFlight.Answer 0 a1; InFlight.Answer 0 a2]) in
    let reversed :=
      InFlight.run (InFlight.idle w)
        (clicks ++ [InFlight.Answer 1 a2; InFlight.Answer 0 a1]) in
    ui (InFlight.world inOrder)
    = ui (Results.step w (Results.ApplySelection f2 m2 a2)) /\
    ui (InFlight.world reversed)
    = ui (Results.step w (Results.ApplySelection f1 m1 a1)) /\
    calls (InFlight.world inOrder)
    = UpdateSelectedModel f2 m2 :: UpdateSelectedModel f1 m1 :: calls w /\
    calls (InFlight.world reversed)
    = UpdateSelectedModel f2 m2 :: UpdateSelectedModel f1 m1 :: calls w /\
    InFlight.pending inOrder = [] /\
    InFlight.pending reversed = [] /\
    (forall i f,
        nth_error (Results.fixtures (ui w)) i = Some f ->
        (Fixture.id f = f1 ->
         nth_error (Results.fixtures (ui (InFlight.world inOrder))) i = Some f) /\
        (Fixture.id f = f2 ->
         nth_error (Results.fixtures (ui (InFlight.world reversed))) i = Some f)).
Proof.
  intros w f1 m1 f2 m2 d1 d2 Hne a1 a2 clicks inOrder reversed.
  subst inOrder reversed clicks a1 a2.
  repeat match goal with |- _ /\ _ => split end; try reflexivity.
  intros i f Hi. split; intro Hid.
  - change (Results.fixtures
              (ui (InFlight.world
                     (InFlight.run (InFlight.idle w)
                        ([InFlight.Click f1 m1; InFlight.Click f2 m2]
                         ++ [InFlight.Answer 0 (mkResponse d1 None);
                             InFlight.Answer 0 (mkResponse d2 None)])))))
      with (map (Results.withSelection f2 m2
                   (find (fun m => String.eqb (FixtureModel.id m) m2)
                      (Results.allModels (ui w))))
              (Results.fixtures (ui w))).
    rewrite nth_error_map, Hi. cbn [option_map].
    rewrite update_other; [reflexivity | congruence].
  - change (Results.fixtures
              (ui (InFlight.world
                     (InFlight.run (InFlight.idle w)
                        ([InFlight.Click f1 m1; InFlight.Click f2 m2]
                         ++ [InFlight.Answer 1 (mkResponse d2 None);
                             InFlight.Answer 0 (mkResponse d1 None)])))))
      with (map (Results.withSelection f1 m1
                   (find (fun m => String.eqb (FixtureModel.id m) m1)
                      (Results.allModels (ui w))))
              (Results.fixtures (ui w))).
    rewrite nth_error_map, Hi. cbn [option_map].
    rewrite update_other; [reflexivity | congruence].
Qed.

(** X21 on the loaded sample page: both fixtures are changed at once, and
    after the two answers the first fixture still shows the panel it had. *)
Lemma overlapping_selections_keep_the_last_witness :
  nth_error
    (Results.fixtures
       (ui (InFlight.world
              (InFlight.run (InFlight.idle Sample.loaded)
                 ([InFlight.Click "f-1" "m-2"; InFlight.Click "f-2" "m-1"]
                  ++ [InFlight.Answer 0 (mkResponse (Some tt) None);
                      InFlight.Answer 0 (mkResponse (Some tt) None)])))))
    0
  = nth_error (Results.fixtures (ui Sample.loaded)) 0.
Proof.
  destruct (overlapping_selections_keep_the_last Sample.loaded "f-1" "m-2"
              "f-2" "m-1" (Some tt) (Some tt))
    as [_ [_ [_ [_ [_ [_ Hkept]]]]]].
  - discriminate.
  - assert (Hf : nth_error (Results.fixtures (ui Sample.loaded)) 0
                 = Some (Fixture.with_recommendations
                           (Sample.row "f-1" 2 (Some Sample.panel40))
                           [Sample.panel36] false))
      by reflexivity.
    rewrite Hf. exact (proj1 (Hkept 0%nat _ Hf) eq_refl).
Defined.

(** X22. A toggle made between the click of a selection change and its
    answer is undone when the store accepts the change: the handler writes
    the list of the render it was clicked on, so the page ends as if the
    toggle had not been made and every fixture has the visibility flag it
    had at the click. When the store rejects the change the toggle
    stays. *)
Theorem toggle_in_flight_is_overwritten :
  forall (w : World Results.State) (a fixtureId newModelId e : string)
         (d : option unit),
    let during answer :=
      InFlight.run (InFlight.idle w)
        [InFlight.Click fixtureId newModelId; InFlight.Toggle a;
         InFlight.Answer 0 answer] in
    ui (InFlight.world (during (mkResponse d None)))
    = ui (Results.step w
            (Results.ApplySelection fixtureId newModelId (mkResponse d None))) /\
    map Fixture.showRecommendations
      (Results.fixtures (ui (InFlight.world (during (mkResponse d None)))))
    = map Fixture.showRecommendations (Results.fixtures (ui w)) /\
    ui (InFlight.world (during (mkResponse d (Some e))))
    = ui (Results.step w (Results.ToggleRecommendations a)).
Proof.
  intros w a fixtureId newModelId e d during. subst during.
  split; [reflexivity|]. split; [|reflexivity].
  change (Results.fixtures
            (ui (InFlight.world
                   (InFlight.run (InFlight.idle w)
                      [InFlight.Click fixtureId newModelId; InFlight.Toggle a;
                       InFlight.Answer 0 (mkResponse d None)]))))
    with (map (Results.withSelection fixtureId newModelId
                 (find (fun m => String.eqb (FixtureModel.id m) newModelId)
                    (Results.allModels (ui w))))
            (Results.fixtures (ui w))).
  rewrite map_map. apply map_ext. intro f. unfold Results.withSelection.
  destruct (String.eqb (Fixture.id f) fixtureId); reflexivity.
Qed.

(** * The tests of the file handlers *)

(** X10. For every state of the form and every file, [handleFileChange]
    ends with the file chosen, and [handleDrop] ends without a message,
    exactly when the file is at most 50 MB (52428800 bytes, the bound
    included) and its name either is the letters [dwg] or [dxf] themselves
    or ends with a point followed by them, in any mix of upper and lower
    case. *)
Theorem file_handlers_take_cad_names :
  forall (w : World Upload.State) (f : Upload.File),
    let cadName :=
      Upload.size f <= 52428800 /\
      exists ext,
        Checks.cadExtension ext = true /\
        (Upload.name f = ext \/ exists base, Upload.name f = base ++ "." ++ ext) in
    (Upload.file (ui (exec (Upload.handleFileChange (Some f)) w)) = Some f
     <-> cadName) /\
    (Upload.error (ui (exec (Upload.handleDrop (Some f)) w)) = ""
     <-> cadName).
Proof.
  intros w f cadName. subst cadName.
  rewrite <- (acceptable_iff_cad_name f).
  destruct (Checks.acceptable f) eqn:Hacc.
  - rewrite (handleDrop_accepted w f Hacc), (handleFileChange_accepted w f Hacc).
    split; split; reflexivity.
  - destruct (handlers_rejected w f Hacc)
      as [Hfile [_ [_ [_ [_ [_ [Hsame Herror]]]]]]].
    rewrite Hsame, Herror, Hfile.
    split; split; intro H; try discriminate H.
    destruct (Checks.cadExtension (Upload.lastSegment (Upload.name f) ""));
      discriminate H.
Qed.

(** ** Blank project names *)

(** The names [trim] empties: ASCII white space, a no-break space, a line
    separator followed by a tab; and three it does not: a letter, a lone
    first byte of the no-break space, a zero-width space. *)
Example blank_samples :
  map Upload.blank
    ["   ";
     String (ascii_of_nat 194) (String (ascii_of_nat 160) "");
     String (ascii_of_nat 226) (String (ascii_of_nat 128)
       (String (ascii_of_nat 168) (String (ascii_of_nat 9) "")));
     " a ";
     String (ascii_of_nat 194) "";
     String (ascii_of_nat 226) (String (ascii_of_nat 128)
       (String (ascii_of_nat 139) ""))]
  = [true; true; true; false; false; false].
Proof. reflexivity. Qed.
